(** * crop-mask: the Earth Engine export scheduler

    A shallow embedding of [src/ETL/ee_exporter.py], of
    [src/ETL/cloudfree/utils.py] and of [src/utils.py] (the label exporter,
    its ledger checks, the decomposition of a date range into time steps, the
    naming of an export, the band-wise combination of the per-step mosaics,
    the region exporter, the start and the monitoring of an export task, and
    the reading of an exported file), followed by the properties the
    specification states about them and by further properties of the code.

    Layout: the Python values the code handles ([PyStr], [PyDate], [PyFloat]),
    the effects it has ([Eff]), the code itself ([CloudFree], [Exporter]), the
    specification's own wording of two operations ([Spec]), the rest of the
    exporter and of the utilities ([PyText], [Memoize], [Cancel], [Region],
    [TaskUtils], [Utils], [Labels]) and then the lemmas and theorems. *)

From Stdlib Require Import ZArith NArith List Bool Arith Lia FinFun.
From Stdlib Require Import Ascii String DecimalString DecimalPos DecimalN.
From Stdlib Require Import SpecFloat.
Import ListNotations.

Open Scope string_scope.
Open Scope Z_scope.

(* ================================================================== *)
(** ** Python strings *)

Module PyStr.

(** [s.replace(old, new)] for one-character [old] and [new], the only way the
    exporter calls it. *)
Fixpoint replace (old new : ascii) (s : string) : string :=
  match s with
  | EmptyString => EmptyString
  | String c s' => String (if Ascii.eqb c old then new else c) (replace old new s')
  end.

(** The slice [s[:n]]. *)
Fixpoint prefix (n : nat) (s : string) : string :=
  match n, s with
  | S n', String c s' => String c (prefix n' s')
  | _, _ => EmptyString
  end.

(** [str(n)] for a natural number. *)
Definition of_N (n : N) : string := NilZero.string_of_uint (N.to_uint n).

(** [n] zeros. *)
Fixpoint zeros (n : nat) : string :=
  match n with
  | O => EmptyString
  | S n' => String "0" (zeros n')
  end.

(** The format ["%0<width>d"] for a natural number. *)
Definition zero_padded (width : nat) (n : N) : string :=
  let s := of_N n in zeros (width - String.length s) ++ s.

(** Membership [x in l] for a list of strings. *)
Definition mem (x : string) (l : list string) : bool :=
  existsb (String.eqb x) l.

End PyStr.

(* ================================================================== *)
(** ** Python dates

    A [datetime.date] is represented by its proleptic Gregorian ordinal
    ([date.toordinal()], day 1 being 0001-01-01): comparison of dates is
    comparison of ordinals and [d + timedelta(days=n)] is the date of ordinal
    [toordinal(d) + n].  The calendar functions are those of the [datetime]
    module; they are used to write a date down and to print it.  The range
    check of [datetime] (years 1 to 9999) is not part of the model. *)

Module PyDate.

Definition date := Z.

Definition _DAYS_IN_MONTH : list Z :=
  [-1; 31; 28; 31; 30; 31; 30; 31; 31; 30; 31; 30; 31].

Definition _DAYS_BEFORE_MONTH : list Z :=
  [-1; 0; 31; 59; 90; 120; 151; 181; 212; 243; 273; 304; 334].

Definition _is_leap (year : Z) : bool :=
  (year mod 4 =? 0) && (negb (year mod 100 =? 0) || (year mod 400 =? 0)).

Definition _days_before_year (year : Z) : Z :=
  let y := year - 1 in y * 365 + y / 4 - y / 100 + y / 400.

Definition _days_before_month (year month : Z) : Z :=
  nth (Z.to_nat month) _DAYS_BEFORE_MONTH 0
  + (if (2 <? month) && _is_leap year then 1 else 0).

(** [date(year, month, day).toordinal()]. *)
Definition _ymd2ord (year month day : Z) : date :=
  _days_before_year year + _days_before_month year month + day.

Definition _DI400Y : Z := 146097.
Definition _DI100Y : Z := 36524.
Definition _DI4Y : Z := 1461.

(** [(year, month, day)] of an ordinal. *)
Definition _ord2ymd (n0 : date) : Z * Z * Z :=
  let n := n0 - 1 in
  let n400 := n / _DI400Y in
  let n := n mod _DI400Y in
  let year := n400 * 400 + 1 in
  let n100 := n / _DI100Y in
  let n := n mod _DI100Y in
  let n4 := n / _DI4Y in
  let n := n mod _DI4Y in
  let n1 := n / 365 in
  let n := n mod 365 in
  let year := year + n100 * 100 + n4 * 4 + n1 in
  if (n1 =? 4) || (n100 =? 4) then (year - 1, 12, 31)
  else
    let leapyear := (n1 =? 3) && (negb (n4 =? 24) || (n100 =? 3)) in
    let month := Z.shiftr (n + 50) 5 in
    let preceding :=
      nth (Z.to_nat month) _DAYS_BEFORE_MONTH 0
      + (if (2 <? month) && leapyear then 1 else 0) in
    if n <? preceding then
      let month := month - 1 in
      let preceding :=
        preceding
        - (nth (Z.to_nat month) _DAYS_IN_MONTH 0
           + (if (month =? 2) && leapyear then 1 else 0)) in
      (year, month, n - preceding + 1)
    else (year, month, n - preceding + 1).

(** [str(d)], that is [d.isoformat()]: ["%04d-%02d-%02d"]. *)
Definition isoformat (d : date) : string :=
  let '(y, m, dd) := _ord2ymd d in
  PyStr.zero_padded 4 (Z.to_N y) ++ "-" ++ PyStr.zero_padded 2 (Z.to_N m)
  ++ "-" ++ PyStr.zero_padded 2 (Z.to_N dd).

(** [d + timedelta(days=n)]. *)
Definition add_days (d : date) (n : Z) : date := d + n.

End PyDate.

(* ================================================================== *)
(** ** Python floats

    A [float] is an IEEE-754 binary64 value, here a [spec_float]:
    [S754_finite s m e] is the number [(-1)^s * m * 2^e].

    [round(x, 4)] rounds the exact binary value of [x] to the nearest
    multiple of [10^-4], ties to even, and returns the double nearest to that
    decimal; [repr] then prints the shortest decimal that reads back as this
    double.  A decimal of at most 15 significant digits is the shortest one
    of the double nearest to it, so for coordinates (degrees) the printed
    text is the rounded decimal itself: [round4] keeps the decimal,
    [F4dec s n] standing for the double nearest to [(-1)^s * n / 10^4], and
    [repr] prints it in positional notation. *)

Module PyFloat.

Definition float := spec_float.

Inductive float4 : Type :=
  | F4nan
  | F4inf (s : bool)
  | F4dec (s : bool) (n : N).

(** The integer nearest to [num / den] ([den > 0]), ties to even. *)
Definition div_half_even (num den : Z) : Z :=
  let q := num / den in
  let r := num mod den in
  if 2 * r <? den then q
  else if den <? 2 * r then q + 1
  else if Z.even q then q else q + 1.

(** [|x| * 10^4] rounded to an integer, for the finite [m * 2^e]. *)
Definition scaled4 (m : positive) (e : Z) : Z :=
  if 0 <=? e then Z.pos m * 2 ^ e * 10000
  else div_half_even (Z.pos m * 10000) (2 ^ (- e)).

(** [round(x, 4)]. *)
Definition round4 (x : float) : float4 :=
  match x with
  | S754_nan => F4nan
  | S754_infinity s => F4inf s
  | S754_zero s => F4dec s 0
  | S754_finite s m e => F4dec s (Z.to_N (scaled4 m e))
  end.

(** The digits after the point of [frac / 10^4] without trailing zeros, one
    digit at least. *)
Definition frac_digits (frac : N) : string :=
  if negb (frac mod 10 =? 0)%N then PyStr.zero_padded 4 frac
  else if negb (frac mod 100 =? 0)%N then PyStr.zero_padded 3 (frac / 10)
  else if negb (frac mod 1000 =? 0)%N then PyStr.zero_padded 2 (frac / 100)
  else PyStr.of_N (frac / 1000).

(** [repr(v)] (also [str(v)] and [f"{v}"]) of a rounded coordinate. *)
Definition repr (v : float4) : string :=
  match v with
  | F4nan => "nan"
  | F4inf s => if s then "-inf" else "inf"
  | F4dec s n =>
      (if s then "-" else "")
      ++ PyStr.of_N (n / 10000) ++ "." ++ frac_digits (n mod 10000)
  end.

(** [x] is the double that the decimal literal [num / den] ([den > 0])
    denotes: a finite binary64 value with the sign of [num], within half a
    unit in the last place of [|num| / den]. *)
Definition is_double_of (num den : Z) (x : float) : bool :=
  valid_binary 53 1024 x &&
  match x with
  | S754_finite s m e =>
      Bool.eqb s (num <? 0) &&
      (if 0 <=? e
       then 2 * Z.abs (Z.pos m * 2 ^ e * den - Z.abs num) <=? den
       else 2 * Z.abs (Z.pos m * den - Z.abs num * 2 ^ (- e)) <=? den * 2 ^ (- e))
  | _ => false
  end.

(** The sign of a finite [x] and its decimal expansion cut after the fourth
    decimal place, [floor(|x| * 10^4)]. *)
Definition trunc4 (x : float) : option (bool * Z) :=
  match x with
  | S754_zero s => Some (s, 0)
  | S754_finite s m e =>
      Some (s, if 0 <=? e then Z.pos m * 2 ^ e * 10000
               else (Z.pos m * 10000) / 2 ^ (- e))
  | _ => None
  end.

End PyFloat.

(* ================================================================== *)
(** ** Effects

    A call of the exporter leaves a trace of events (the requests it makes to
    Earth Engine and to Cloud Storage, what it logs, the ledger lists it
    reads) and then returns, raises, or is still running when the fuel given
    to its [while] loop is used up. *)

Module Eff.

Inductive exn : Type :=
  | ValueError (msg : string)
  | EEException (msg : string).

Inductive completion (A : Type) : Type :=
  | Returns (a : A)
  | Raises (e : exn)
  | OutOfFuel.

Arguments Returns {A} a.
Arguments Raises {A} e.
Arguments OutOfFuel {A}.

Definition M (E A : Type) : Type := (list E * completion A)%type.

Definition ret {E A} (a : A) : M E A := ([], Returns a).

Definition bind {E A B} (m : M E A) (k : A -> M E B) : M E B :=
  match m with
  | (t, Returns a) => let '(t', r) := k a in ((t ++ t')%list, r)
  | (t, Raises e) => (t, Raises e)
  | (t, OutOfFuel) => (t, OutOfFuel)
  end.

Definition emit {E} (e : E) : M E unit := ([e], Returns tt).

Definition raise {E A} (e : exn) : M E A := ([], Raises e).

Definition out_of_fuel {E A} : M E A := ([], OutOfFuel).

(** [try: body except Exception: handler]. *)
Definition try_except {E A} (body : M E A) (handler : exn -> M E A) : M E A :=
  match body with
  | (t, Raises e) => let '(t', r) := handler e in ((t ++ t')%list, r)
  | m => m
  end.

Definition trace {E A} (m : M E A) : list E := fst m.
Definition outcome {E A} (m : M E A) : completion A := snd m.

End Eff.

Import Eff.

Notation "x <- m ;; k" := (bind m (fun x => k))
  (at level 61, m at next level, right associativity).
Notation "m ;;; k" := (bind m (fun _ => k))
  (at level 61, right associativity).

(* ================================================================== *)
(** ** [src/ETL/cloudfree/utils.py]: combining the bands of the mosaics

    An image is the list of its bands, each a name and what the band holds.
    [BANDS] ([src/ETL/constants.py]) is not among the sources and neither is
    the way Earth Engine names an added band whose name is taken; both are
    parameters. *)

Module CloudFree.

Inductive ee_result (A : Type) : Type :=
  | Ok (a : A)
  | EEError (msg : string).

Arguments Ok {A} a.
Arguments EEError {A} msg.

Section Bands.

Variable D : Type.
Variable BANDS : list string.
Variable rename : list string -> string -> string.

Definition band : Type := (string * D)%type.
Definition image : Type := list band.

Definition band_names (img : image) : list string := map fst img.
Definition band_data (img : image) : list D := map snd img.

(** The band of [img] called [name]. *)
Definition get_band (name : string) (img : image) : option band :=
  find (fun b => String.eqb (fst b) name) img.

(** [img.select(names)]: the named bands, in the order of [names]; a name the
    image does not have is an error. *)
Fixpoint select (names : list string) (img : image) : ee_result image :=
  match names with
  | [] => Ok []
  | name :: names' =>
      match get_band name img with
      | None => EEError ("Band not found: " ++ name)
      | Some b =>
          match select names' img with
          | Ok bs => Ok (b :: bs)
          | EEError msg => EEError msg
          end
      end
  end.

(** [dst.addBands(src)]: the bands of [dst], then those of [src], an added
    band whose name is taken being renamed. *)
Fixpoint addBands (dst src : image) : image :=
  match src with
  | [] => dst
  | (name, d) :: src' =>
      let name' :=
        if PyStr.mem name (band_names dst) then rename (band_names dst) name
        else name in
      addBands (dst ++ [(name', d)])%list src'
  end.

(** [combine_bands(current, previous)]; [previous] is [None] on the first
    element. *)
Definition combine_bands (current : image) (previous : option image)
  : ee_result image :=
  match select BANDS current with
  | EEError msg => EEError msg
  | Ok current =>
      Ok (match previous with
          | None => current
          | Some previous => addBands previous current
          end)
  end.

(** [ee.ImageCollection(images).iterate(algorithm)], from the state [first]
    ([None] when left out): the state after the elements in order. *)
Fixpoint iterate (algorithm : image -> option image -> ee_result image)
    (images : list image) (first : option image) : ee_result (option image) :=
  match images with
  | [] => Ok first
  | img :: images' =>
      match algorithm img first with
      | EEError msg => EEError msg
      | Ok state => iterate algorithm images' (Some state)
      end
  end.

(** [ee.Image(ee.ImageCollection(images).iterate(combine_bands))]. *)
Definition combine (images : list image) : ee_result (option image) :=
  iterate combine_bands images None.

(** What the band set of a mosaic holds, in the order of [BANDS]. *)
Definition selected (img : image) : list D :=
  match select BANDS img with
  | Ok bs => band_data bs
  | EEError _ => []
  end.

(** The bands of the combined image; the state of an empty collection is
    [None], an image with no band. *)
Definition bands_of (img : option image) : image :=
  match img with
  | None => []
  | Some i => i
  end.

End Bands.

End CloudFree.

(* ================================================================== *)
(** ** [src/ETL/ee_exporter.py] *)

Module Exporter.

Import PyDate PyFloat.

(** [BoundingBox] ([src/ETL/ee_boundingbox.py], not among the sources; the
    fields are those the exporter reads). *)
Record BoundingBox : Type := {
  min_lat : float;
  max_lat : float;
  min_lon : float;
  max_lon : float
}.

(** [bbox.to_ee_polygon()]: the [ee.Geometry.Polygon] of a box. *)
Inductive polygon : Type :=
  | EEPolygon (bbox : BoundingBox).

(** The [ee.Image] that [cloudfree.get_single_image_fast] ([fast]) or
    [cloudfree.get_single_image] builds for a region and a time step: a
    request the service evaluates, kept as what was asked. *)
Record single_image : Type := {
  si_fast : bool;
  si_region : polygon;
  si_start : date;
  si_end : date
}.

(** The keyword arguments of the call [cloudfree.export(...)] at lines 130
    to 138; [ex_images] is the collection whose bands [combine_bands]
    appends into the exported image. *)
Record export_call : Type := {
  ex_images : list single_image;
  ex_region : polygon;
  ex_dest_bucket : option string;
  ex_file_name_prefix : string;
  ex_monitor : bool;
  ex_file_dimensions : option Z;
  ex_description : string
}.

(** The three ledger lists reads of [_export_using_point_and_dates]. *)
Inductive check : Type :=
  | StorageCheck
  | PendingCheck
  | CapacityCheck.

Inductive event : Type :=
  | EvInitialize (credentials : option string)   (* ee.Initialize *)
  | EvListBlobs (bucket : string)                (* storage.Client().list_blobs *)
  | EvGetTaskList                                (* ee.data.getTaskList *)
  | EvSingleImage (img : single_image)           (* export_func(region, start, end) *)
  | EvExport (call : export_call)                (* cloudfree.export *)
  | EvLogError (msg : string)                    (* logger.error *)
  | EvConsult (c : check)                        (* a read of a ledger list *)
  | EvStdout (msg : string).                     (* print *)

(** The events that are requests to Earth Engine or to Cloud Storage. *)
Definition is_remote_call (e : event) : bool :=
  match e with
  | EvInitialize _ | EvListBlobs _ | EvGetTaskList
  | EvSingleImage _ | EvExport _ => true
  | EvLogError _ | EvConsult _ | EvStdout _ => false
  end.

Definition remote_calls (t : list event) : list event := filter is_remote_call t.

Definition Run (A : Type) : Type := M event A.

(** An entry of [ee.data.getTaskList()]. *)
Record task : Type := {
  task_id : string;
  task_description : string;
  task_state : string
}.

(** What the services answer during a run.  Of the requests only
    [ee.Initialize] is given a way to fail; the others are recorded as made
    and answered.  What the Earth Engine client answers to a request made
    after a failed [ee.Initialize] is not in the sources; here it answers
    as it does after a successful one. *)
Record Remote : Type := {
  initialize_raises : option string -> bool;  (* ee.Initialize(credentials) fails *)
  list_blobs : string -> list string;         (* blob names of a bucket under "tifs" *)
  getTaskList : list task
}.

(** [get_cloud_tif_list(dest_bucket)], the function under its [memoize]
    decorator: what the first call of a process for [dest_bucket] does.  The
    decorator itself is [Memoize.helper]: a later call for the same bucket
    is answered from its dictionary, without a request, and the bucket name
    ["default"] makes it call the function without argument. *)
Definition get_cloud_tif_list (remote : Remote) (dest_bucket : string)
  : Run (list string) :=
  emit (EvListBlobs dest_bucket);;;
  ret (list_blobs remote dest_bucket).

(** The comprehension of [get_ee_task_list], [key] being ["description"]. *)
Definition not_completed (task_list : list task) : list string :=
  map task_description
      (filter (fun t => negb (String.eqb (task_state t) "COMPLETED")) task_list).

(** [get_ee_task_list()], the function under its [memoize] decorator: what
    the first call of a process does.  A later call is answered by
    [Memoize.helper] from its dictionary, without a request. *)
Definition get_ee_task_list (remote : Remote) : Run (list string) :=
  emit EvGetTaskList;;;
  ret (not_completed (getTaskList remote)).

Record EarthEngineExporter : Type := {
  days_per_timestep : Z;
  num_timesteps : Z;
  fast : bool;
  monitor : bool;
  credentials : option string;
  file_dimensions : option Z
}.

(** Python's truth value of [self.credentials]. *)
Definition truthy (c : option string) : bool :=
  match c with
  | Some s => negb (String.eqb s "")
  | None => false
  end.

Definition ee_Initialize (remote : Remote) (c : option string) : Run unit :=
  emit (EvInitialize c);;;
  if initialize_raises remote c
  then raise (EEException "ee.Initialize")
  else ret tt.

Definition check_earthengine_auth (remote : Remote) (self : EarthEngineExporter)
  : Run unit :=
  try_except
    (if truthy (credentials self)
     then ee_Initialize remote (credentials self)
     else ee_Initialize remote None)
    (fun _ =>
       emit (EvLogError
         "This code doesn't work unless you have authenticated your earthengine account")).

Definition get_single_image_fast (region : polygon) (start_date end_date : date)
  : Run single_image :=
  let img := {| si_fast := true; si_region := region;
                si_start := start_date; si_end := end_date |} in
  emit (EvSingleImage img);;; ret img.

Definition get_single_image (region : polygon) (start_date end_date : date)
  : Run single_image :=
  let img := {| si_fast := false; si_region := region;
                si_start := start_date; si_end := end_date |} in
  emit (EvSingleImage img);;; ret img.

(** The local [export_func] of [_export_for_polygon], chosen by [self.fast]. *)
Definition export_func (fast : bool)
  : polygon -> date -> date -> Run single_image :=
  if fast then get_single_image_fast else get_single_image.

(** The [while] loop of [_export_for_polygon]; [fuel] bounds the number of
    times its condition is evaluated. *)
Fixpoint while_cur_date (fuel : nat)
    (export_func : polygon -> date -> date -> Run single_image)
    (polygon : polygon) (increment : Z) (end_date cur_date : date)
    (image_collection_list : list single_image) : Run (list single_image) :=
  match fuel with
  | O => out_of_fuel
  | S fuel' =>
      if add_days cur_date increment <=? end_date then
        img <- export_func polygon cur_date (add_days cur_date increment);;
        while_cur_date fuel' export_func polygon increment end_date
          (add_days cur_date increment) (image_collection_list ++ [img])%list
      else ret image_collection_list
  end.

(** [cloudfree.export(...)] as the exporter calls it: the submission of the
    export task.  The function is the one the package [cloudfree] binds to
    the name [export] in its [__init__.py], which is not among the sources
    (the [export] of [cloudfree/utils.py], whose parameters are others, is
    [TaskUtils.export]).  The call is recorded with its keyword arguments
    and returns; what the function does with them (starting the task,
    monitoring it, raising) is not modelled. *)
Definition cloudfree_export (call : export_call) : Run unit :=
  emit (EvExport call).

Definition _export_for_polygon (fuel : nat) (today : date)
    (self : EarthEngineExporter) (polygon : polygon)
    (start_date end_date : date) (file_name_prefix description : string)
    (dest_bucket : option string) : Run unit :=
  if today <? end_date then
    raise (ValueError (isoformat end_date ++ " is in the future"))
  else
    image_collection_list <-
      while_cur_date fuel (export_func (fast self)) polygon
        (days_per_timestep self) end_date start_date [];;
    cloudfree_export
      {| ex_images := image_collection_list;
         ex_region := polygon;
         ex_dest_bucket := dest_bucket;
         ex_file_name_prefix := file_name_prefix;
         ex_monitor := monitor self;
         ex_file_dimensions := file_dimensions self;
         ex_description := description |}.

(** The time steps of a list of step images. *)
Definition windows_of (l : list single_image) : list (date * date) :=
  map (fun img => (si_start img, si_end img)) l.

(** The step image of a region for a time step. *)
Definition image_of (fast : bool) (region : polygon) (w : date * date)
  : single_image :=
  {| si_fast := fast; si_region := region; si_start := fst w; si_end := snd w |}.

(** The fields of [LabelExporter] a caller sets. *)
Record LabelExporterArgs : Type := {
  base : EarthEngineExporter;
  dest_bucket : string;
  check_gcp : bool;
  check_ee : bool;
  surrounding_metres : Z
}.

(** A [LabelExporter] after [__post_init__]. *)
Record LabelExporter : Type := {
  args : LabelExporterArgs;
  cloud_tif_list : list string;
  ee_task_list : list string
}.

Definition __post_init__ (remote : Remote) (a : LabelExporterArgs)
  : Run LabelExporter :=
  check_earthengine_auth remote (base a);;;
  tifs <- (if check_gcp a then get_cloud_tif_list remote (dest_bucket a)
           else ret []);;
  tasks <- (if check_ee a then get_ee_task_list remote else ret []);;
  ret {| args := a; cloud_tif_list := tifs; ee_task_list := tasks |}.

Definition _generate_filename_and_desc (bbox : BoundingBox)
    (start_date end_date : date) : string * string :=
  let min_lat := round4 (min_lat bbox) in
  let min_lon := round4 (min_lon bbox) in
  let max_lat := round4 (max_lat bbox) in
  let max_lon := round4 (max_lon bbox) in
  let filename :=
    "min_lat=" ++ repr min_lat ++ "_min_lon=" ++ repr min_lon
    ++ "_max_lat=" ++ repr max_lat ++ "_max_lon=" ++ repr max_lon
    ++ "_dates=" ++ isoformat start_date ++ "_" ++ isoformat end_date in
  let description :=
    PyStr.prefix 100 (PyStr.replace "=" "-" (PyStr.replace "." "-" filename)) in
  (filename, description).

(** The [return] statement [_export_using_point_and_dates] leaves by. *)
Inductive ExportOutcome : Type :=
  | Skipped_Exists        (* line 253: return False *)
  | Skipped_Pending       (* line 256: return True *)
  | Skipped_QuotaCapped   (* line 259: return True *)
  | Submitted.            (* line 269: return True *)

(** The value returned. *)
Definition is_exporting (o : ExportOutcome) : bool :=
  match o with
  | Skipped_Exists => false
  | _ => true
  end.

(** [flag and <read of a ledger list>]: the list is read only when [flag]
    holds. *)
Definition and_consult (flag : bool) (c : check) (v : bool) : Run bool :=
  if flag then emit (EvConsult c);;; ret v else ret false.

(** [_export_using_point_and_dates].  [bbox] is
    [EEBoundingBox.from_centre(mid_lat=lat, mid_lon=lon,
    surrounding_metres=self.surrounding_metres)], which
    [src/ETL/ee_boundingbox.py] computes; that file is not among the sources
    and the box stands for [lat] and [lon]. *)
Definition _export_using_point_and_dates (fuel : nat) (today : date)
    (self : LabelExporter) (bbox : BoundingBox) (start_date end_date : date)
  : Run ExportOutcome :=
  let '(file_name_prefix, description) :=
    _generate_filename_and_desc bbox start_date end_date in
  b <- and_consult (check_gcp (args self)) StorageCheck
         (PyStr.mem ("tifs/" ++ file_name_prefix ++ ".tif") (cloud_tif_list self));;
  if b then ret Skipped_Exists else
  b <- and_consult (check_ee (args self)) PendingCheck
         (PyStr.mem description (ee_task_list self));;
  if b then ret Skipped_Pending else
  b <- and_consult (check_ee (args self)) CapacityCheck
         (3000 <=? Z.of_nat (List.length (ee_task_list self)));;
  if b then ret Skipped_QuotaCapped else
  _export_for_polygon fuel today (base (args self)) (EEPolygon bbox)
    start_date end_date ("tifs/" ++ file_name_prefix) description
    (Some (dest_bucket (args self)));;;
  ret Submitted.

(** A row of [labels]: the box of its [lat] and [lon] and its dates. *)
Record label : Type := {
  label_bbox : BoundingBox;
  label_start : date;
  label_end : date
}.

(** The [for] loop of [LabelExporter.export] with its two counters. *)
Fixpoint export_rows (fuel : nat) (today : date) (self : LabelExporter)
    (labels : list label) (amount_exporting amount_exported : Z) : Run (Z * Z) :=
  match labels with
  | [] => ret (amount_exporting, amount_exported)
  | row :: labels' =>
      o <- _export_using_point_and_dates fuel today self
             (label_bbox row) (label_start row) (label_end row);;
      if is_exporting o
      then export_rows fuel today self labels' (amount_exporting + 1) amount_exported
      else export_rows fuel today self labels' amount_exporting (amount_exported + 1)
  end.

(** [LabelExporter.export(labels)]; the counters are returned for the
    record. *)
Definition export (fuel : nat) (today : date) (self : LabelExporter)
    (labels : list label) : Run (Z * Z) :=
  counts <- export_rows fuel today self labels 0 0;;
  (if 0 <? fst counts
   then emit (EvStdout ("Exporting " ++ PyStr.of_N (Z.to_N (fst counts))
                        ++ " see progress: https://code.earthengine.google.com/"))
   else ret tt);;;
  (if 0 <? snd counts
   then emit (EvStdout (PyStr.of_N (Z.to_N (snd counts))
                        ++ " files exist on Google Cloud, run command to download:"
                        ++ String "010"%char
                             "gsutil -m cp -n -r gs://crop-mask-tifs/tifs data/"))
   else ret tt);;;
  ret counts.

(** A run: a [LabelExporter] is built from its arguments and its [export]
    is called on the labels. *)
Definition run (fuel : nat) (today : date) (remote : Remote)
    (a : LabelExporterArgs) (labels : list label) : Run (Z * Z) :=
  self <- __post_init__ remote a;;
  export fuel today self labels.

End Exporter.

(* ================================================================== *)
(** ** The specification's wording

    The operations of the ledger and the readings of the identifier that the
    specification gives in its own words, to be compared with the code. *)

Module Spec.

Import PyFloat Exporter.

Record LedgerSnapshot : Type := {
  existing_outputs : list string;
  pending_jobs : list string
}.

(** The snapshot an exporter holds. *)
Definition snapshot_of (self : LabelExporter) : LedgerSnapshot :=
  {| existing_outputs := cloud_tif_list self;
     pending_jobs := ee_task_list self |}.

Definition exists_ (s : LedgerSnapshot) (path : string) : bool :=
  PyStr.mem path (existing_outputs s).

Definition is_pending (s : LedgerSnapshot) (identifier : string) : bool :=
  PyStr.mem identifier (pending_jobs s).

Definition at_capacity (s : LedgerSnapshot) (cap : Z) : bool :=
  cap <=? Z.of_nat (List.length (pending_jobs s)).

Inductive decision : Type :=
  | Decide_Exists
  | Decide_Pending
  | Decide_QuotaCapped
  | Proceed.

(** "if exists, Skipped-Exists; else if is_pending, Skipped-Pending; else if
    at_capacity, Skipped-QuotaCapped; else proceed to submission". *)
Definition evaluate (s : LedgerSnapshot) (path identifier : string) (cap : Z)
  : decision :=
  if exists_ s path then Decide_Exists
  else if is_pending s identifier then Decide_Pending
  else if at_capacity s cap then Decide_QuotaCapped
  else Proceed.

(** The outcome the scheduler reports for a decision that skips. *)
Definition skip_outcome (d : decision) : option ExportOutcome :=
  match d with
  | Decide_Exists => Some Skipped_Exists
  | Decide_Pending => Some Skipped_Pending
  | Decide_QuotaCapped => Some Skipped_QuotaCapped
  | Proceed => None
  end.

(** The canonical output path of a request and the default cap. *)
Definition output_path (file_name_prefix : string) : string :=
  "tifs/" ++ file_name_prefix ++ ".tif".

Definition default_cap : Z := 3000.

(** The time steps of "windows(start_date, end_date, days_per_step)":
    consecutive steps of [days_per_step] days from [start_date], as many as
    fit before [end_date]. *)
Definition steps (start_date : PyDate.date) (days_per_step : Z) (n : nat)
  : list (PyDate.date * PyDate.date) :=
  map (fun i => (start_date + Z.of_nat i * days_per_step,
                 start_date + Z.of_nat i * days_per_step + days_per_step))
      (seq 0 n).

Definition windows (start_date end_date : PyDate.date) (days_per_step : Z)
  : list (PyDate.date * PyDate.date) :=
  steps start_date days_per_step
        (Z.to_nat ((end_date - start_date) / days_per_step)).

(** A string "with the characters [.] and [=] stripped". *)
Fixpoint strip_dot_eq (s : string) : string :=
  match s with
  | EmptyString => EmptyString
  | String c s' =>
      if Ascii.eqb c "." || Ascii.eqb c "=" then strip_dot_eq s'
      else String c (strip_dot_eq s')
  end.

(** The remote-job description as the specification words it. *)
Definition description_stripped (identifier : string) : string :=
  PyStr.prefix 100 (strip_dot_eq identifier).

(** A remote job that is "queued or running". *)
Definition queued_or_running (t : task) : bool :=
  String.eqb (task_state t) "READY" || String.eqb (task_state t) "RUNNING".

(** Two coordinates that "agree in every digit up to and including the 4th
    decimal place": finite, of the same sign, with the same expansion cut
    after four decimals. *)
Definition agree4 (x y : float) : Prop :=
  exists s n, trunc4 x = Some (s, n) /\ trunc4 y = Some (s, n).

Definition boxes_agree4 (a b : BoundingBox) : Prop :=
  agree4 (min_lat a) (min_lat b) /\ agree4 (min_lon a) (min_lon b) /\
  agree4 (max_lat a) (max_lat b) /\ agree4 (max_lon a) (max_lon b).

End Spec.

(* ================================================================== *)
(** ** The ledger decision, for the statements *)

Module Ledger.

Import PyDate Exporter.

(** The lists an exporter holds after [__post_init__]. *)
Definition built (remote : Remote) (a : LabelExporterArgs) : LabelExporter :=
  {| args := a;
     cloud_tif_list :=
       if check_gcp a then list_blobs remote (dest_bucket a) else [];
     ee_task_list :=
       if check_ee a then not_completed (getTaskList remote) else [] |}.

(** What [__post_init__] leaves: a ledger list is empty when its check is
    switched off. *)
Definition lists_follow_flags (self : LabelExporter) : Prop :=
  (check_gcp (args self) = false -> cloud_tif_list self = []) /\
  (check_ee (args self) = false -> ee_task_list self = []).

(** The decision of the specification for a request of an exporter. *)
Definition decision_for (self : LabelExporter) (bbox : BoundingBox)
    (start_date end_date : date) : Spec.decision :=
  Spec.evaluate (Spec.snapshot_of self)
    (Spec.output_path (fst (_generate_filename_and_desc bbox start_date end_date)))
    (snd (_generate_filename_and_desc bbox start_date end_date))
    Spec.default_cap.

(** The checks read before a decision, given the two flags. *)
Definition checks_before (self : LabelExporter) (d : Spec.decision) : list check :=
  let storage := if check_gcp (args self) then [StorageCheck] else [] in
  let pending := if check_ee (args self) then [PendingCheck] else [] in
  let capacity := if check_ee (args self) then [CapacityCheck] else [] in
  match d with
  | Spec.Decide_Exists => storage
  | Spec.Decide_Pending => storage ++ pending
  | _ => storage ++ pending ++ capacity
  end%list.

(** The submission of a request that no ledger check skips (lines 261 to
    269). *)
Definition submission (fuel : nat) (today : date) (self : LabelExporter)
    (bbox : BoundingBox) (start_date end_date : date) : Run ExportOutcome :=
  let '(file_name_prefix, description) :=
    _generate_filename_and_desc bbox start_date end_date in
  _export_for_polygon fuel today (base (args self)) (EEPolygon bbox)
    start_date end_date ("tifs/" ++ file_name_prefix) description
    (Some (dest_bucket (args self)));;;
  ret Submitted.

End Ledger.

(* ================================================================== *)
(** ** The names of an export, for the statements *)

Module Naming.

Import PyFloat Exporter.

(** What the two [replace] calls make of a character. *)
Definition dash (c : ascii) : ascii :=
  if Ascii.eqb c "." || Ascii.eqb c "=" then "-"%char else c.

(** The finite [x] has sign [s] and lies strictly within [0.00005] of
    [k / 10^4] in absolute value. *)
Definition near4 (x : float) (s : bool) (k : Z) : Prop :=
  match x with
  | S754_zero s' => s' = s /\ k = 0
  | S754_finite s' m e =>
      s' = s /\ 0 <= k /\
      if 0 <=? e then Z.pos m * 2 ^ e * 10000 = k
      else 2 * Z.abs (Z.pos m * 10000 - k * 2 ^ (- e)) < 2 ^ (- e)
  | _ => False
  end.

Definition same_near4 (x y : float) : Prop :=
  exists s k, near4 x s k /\ near4 y s k.

Definition boxes_near4 (a b : BoundingBox) : Prop :=
  same_near4 (min_lat a) (min_lat b) /\ same_near4 (min_lon a) (min_lon b) /\
  same_near4 (max_lat a) (max_lat b) /\ same_near4 (max_lon a) (max_lon b).

End Naming.

(* ================================================================== *)
(** ** Concrete inputs *)

Module Example.

Import PyDate PyFloat Exporter.

(** The doubles written [0.00072], [-0.00072], [1.00004], [1.00006] and
    [1.0]. *)
Definition f_0_00072 : float := S754_finite false 6640827866535439 (-63).
Definition f_m0_00072 : float := S754_finite true 6640827866535439 (-63).
Definition f_1_00004 : float := S754_finite false 4503779771355591 (-52).
Definition f_1_00006 : float := S754_finite false 4503869843348138 (-52).
Definition f_1_0 : float := S754_finite false 4503599627370496 (-52).

(** The box of 80 metres around the point (0, 0). *)
Definition box80 : BoundingBox :=
  {| min_lat := f_m0_00072; max_lat := f_0_00072;
     min_lon := f_m0_00072; max_lon := f_0_00072 |}.

(** Two boxes that differ in [min_lat] only, past the fourth decimal. *)
Definition box_a : BoundingBox :=
  {| min_lat := f_1_00004; max_lat := f_0_00072;
     min_lon := f_m0_00072; max_lon := f_0_00072 |}.
Definition box_b : BoundingBox :=
  {| min_lat := f_1_00006; max_lat := f_0_00072;
     min_lon := f_m0_00072; max_lon := f_0_00072 |}.

Definition box_one : BoundingBox :=
  {| min_lat := f_1_0; max_lat := f_0_00072;
     min_lon := f_m0_00072; max_lon := f_0_00072 |}.

Definition start_2020 : date := _ymd2ord 2020 1 1.
Definition end_2021 : date := _ymd2ord 2021 1 1.
Definition today : date := _ymd2ord 2021 6 1.
Definition tomorrow : date := _ymd2ord 2021 6 2.

(** The names of the export of [box80] from 2020-01-01 to 2021-01-01 and to
    [tomorrow]. *)
Definition name_2021 : string :=
  "min_lat=-0.0007_min_lon=-0.0007_max_lat=0.0007_max_lon=0.0007_dates=2020-01-01_2021-01-01".
Definition desc_tomorrow : string :=
  "min_lat--0-0007_min_lon--0-0007_max_lat-0-0007_max_lon-0-0007_dates-2020-01-01_2021-06-02".

(** The defaults of the dataclasses. *)
Definition exporter_defaults : EarthEngineExporter :=
  {| days_per_timestep := 30; num_timesteps := 12; fast := true;
     monitor := false; credentials := None; file_dimensions := None |}.

Definition label_args (gcp ee : bool) : LabelExporterArgs :=
  {| base := exporter_defaults; dest_bucket := "crop-mask-tifs";
     check_gcp := gcp; check_ee := ee; surrounding_metres := 80 |}.

Definition a_task (description state : string) : task :=
  {| task_id := "T"; task_description := description; task_state := state |}.

(** 3000 running tasks, named [job0] to [job2999]. *)
Definition running_3000 : list task :=
  map (fun i => a_task ("job" ++ PyStr.of_N (N.of_nat i)) "RUNNING") (seq 0 3000).

(** A service whose bucket holds the output of [name_2021]. *)
Definition remote_with (raises : bool) (tasks : list task) : Remote :=
  {| initialize_raises := fun _ => raises;
     list_blobs := fun _ => ["tifs/" ++ name_2021 ++ ".tif"];
     getTaskList := tasks |}.

(** A band set of two bands, mosaics that hold them among three bands, and
    a way to rename a band. *)
Definition two_bands : list string := ["B2"; "B3"].
Definition mosaic (i : Z) : CloudFree.image Z :=
  [("B3", 10 * i + 3); ("B1", 10 * i + 1); ("B2", 10 * i + 2)].
Definition suffix_1 (used : list string) (name : string) : string := name ++ "_1".

End Example.

(* ================================================================== *)
(** ** More Python text: splitting, slices, the name of a path *)

Module PyText.

(** [s.split(sep)] for a one-character [sep]: the pieces between the
    separators, empty pieces included; never the empty list. *)
Fixpoint split (sep : ascii) (s : string) : list string :=
  match s with
  | EmptyString => [EmptyString]
  | String c s' =>
      if Ascii.eqb c sep then EmptyString :: split sep s'
      else match split sep s' with
           | piece :: pieces => String c piece :: pieces
           | [] => [String c EmptyString]
           end
  end.

(** The slice [s[:-n]]: [s] without its last [n] characters. *)
Definition drop_last (n : nat) (s : string) : string :=
  PyStr.prefix (String.length s - n) s.

(** The number of occurrences of a character. *)
Fixpoint count (c : ascii) (s : string) : nat :=
  match s with
  | EmptyString => O
  | String c' s' => (if Ascii.eqb c' c then 1 else 0) + count c s'
  end.

(** [Path(p).name] for a POSIX path: the last component, the empty ones and
    the [.] ones apart; empty when there is none. *)
Definition path_name (p : string) : string :=
  last (filter (fun part => negb (String.eqb part "") && negb (String.eqb part "."))
               (split "/" p))
       "".

End PyText.

(* ================================================================== *)
(** ** [memoize] ([src/ETL/ee_exporter.py], lines 18 to 27)

    The dictionary [memo] of a memoized function is a list of keys and
    values in the order they were stored; [helper] takes it and gives it
    back.  [f None] is the call [f()] and [f (Some x)] the call [f(x)]. *)

Module Memoize.

Section Helper.

Variables E V : Type.

Definition memo : Type := list (string * V).

(** [memo[x]], when [x in memo]. *)
Definition lookup (x : string) (m : memo) : option V :=
  option_map snd (find (fun kv => String.eqb (fst kv) x) m).

(** [helper(x)]; a call without argument is [helper "default"]. *)
Definition helper (f : option string -> M E V) (m : memo) (x : string)
  : M E (V * memo) :=
  match lookup x m with
  | None =>
      v <- (if String.eqb x "default" then f None else f (Some x));;
      ret (v, (m ++ [(x, v)])%list)
  | Some v => ret (v, m)
  end.

End Helper.

End Memoize.

(* ================================================================== *)
(** ** [EarthEngineExporter.cancel_all_tasks] (lines 85 to 98) *)

Module Cancel.

Import Exporter.

Inductive event : Type :=
  | EvInitialize                     (* ee.Initialize() *)
  | EvTaskList                       (* ee.batch.Task.list() *)
  | EvStatus (id : string)           (* task.status() *)
  | EvCancel (id : string)           (* task.cancel() *)
  | EvLogInfo (msg : string).        (* logger.info *)

Definition running_or_ready (t : task) : bool :=
  String.eqb (task_state t) "RUNNING" || String.eqb (task_state t) "READY".

(** The [for] loop over the tasks. *)
Fixpoint cancel_tasks (tasks : list task) : M event unit :=
  match tasks with
  | [] => ret tt
  | t :: tasks' =>
      emit (EvStatus (task_id t));;;
      emit (EvStatus (task_id t));;;
      (if running_or_ready t
       then emit (EvCancel (task_id t));;;
            emit (EvLogInfo ("Task " ++ task_id t ++ " cancelled"))
       else emit (EvLogInfo ("Task " ++ task_id t ++ " state is " ++ task_state t)));;;
      cancel_tasks tasks'
  end.

Definition cancel_all_tasks (remote : Remote) : M event unit :=
  emit EvInitialize;;;
  (if initialize_raises remote None
   then raise (EEException "ee.Initialize") else ret tt);;;
  emit EvTaskList;;;
  emit (EvLogInfo ("Cancelling up to "
                   ++ PyStr.of_N (N.of_nat (List.length (getTaskList remote)))
                   ++ " tasks"));;;
  cancel_tasks (getTaskList remote).

(** The tasks a trace cancels, in order. *)
Definition cancelled (t : list event) : list string :=
  flat_map (fun e => match e with EvCancel id => [id] | _ => [] end) t.

End Cancel.

(* ================================================================== *)
(** ** [RegionExporter.export] (lines 143 to 198)

    [region.to_polygons(metres_per_patch)] is computed by
    [src/ETL/ee_boundingbox.py], which is not among the sources: it is a
    parameter. *)

Module Region.

Import PyDate Exporter.

Section RegionExport.

Variable to_polygons : BoundingBox -> Z -> list polygon.

(** The start and end dates after the two defaulting branches. *)
Definition default_dates (self : EarthEngineExporter)
    (start_date end_date : option date) : option date * option date :=
  match start_date, end_date with
  | None, Some e =>
      (Some (add_days e (- (days_per_timestep self * num_timesteps self))), Some e)
  | Some s, None =>
      (Some s, Some (add_days s (days_per_timestep self * num_timesteps self)))
  | s, e => (s, e)
  end.

Definition general_identifier (dest_path : string) (start_date end_date : date)
  : string :=
  PyText.path_name dest_path ++ "_" ++ isoformat start_date
  ++ "_" ++ isoformat end_date.

(** The regions and their identifiers. *)
Definition regions_and_ids (region_bbox : BoundingBox)
    (metres_per_polygon : option Z) (general : string)
  : list polygon * list string :=
  match metres_per_polygon with
  | Some metres =>
      let regions := to_polygons region_bbox metres in
      (regions,
       map (fun i => PyStr.of_N (N.of_nat i) ++ "_" ++ general)
           (seq 0 (List.length regions)))
  | None => ([EEPolygon region_bbox], [general])
  end.

(** The [for] loop over [zip(ids, regions)]. *)
Fixpoint export_polygons (fuel : nat) (today : date) (self : EarthEngineExporter)
    (dest_path : string) (dest_bucket : option string)
    (start_date end_date : date) (pairs : list (string * polygon)) : Run unit :=
  match pairs with
  | [] => ret tt
  | (identifier, region) :: pairs' =>
      _export_for_polygon fuel today self region start_date end_date
        (dest_path ++ "/batch_" ++ identifier ++ "/" ++ identifier)
        identifier dest_bucket;;;
      export_polygons fuel today self dest_path dest_bucket
        start_date end_date pairs'
  end.

Definition export (fuel : nat) (today : date) (remote : Remote)
    (self : EarthEngineExporter) (region_bbox : BoundingBox)
    (dest_path : string) (dest_bucket : option string)
    (end_date start_date : option date) (metres_per_polygon : option Z)
  : Run (list string) :=
  check_earthengine_auth remote self;;;
  match default_dates self start_date end_date with
  | (Some start_date, Some end_date) =>
      let '(regions, ids) :=
        regions_and_ids region_bbox metres_per_polygon
          (general_identifier dest_path start_date end_date) in
      export_polygons fuel today self dest_path dest_bucket
        start_date end_date (List.combine ids regions);;;
      ret ids
  | _ =>
      raise (ValueError
        "Unable to determine start_date, either 'season' or 'end_date' and 'num_timesteps' must be set.")
  end.

End RegionExport.

(** The export calls of a trace, in order. *)
Definition exports (t : list event) : list export_call :=
  flat_map (fun e => match e with EvExport call => [call] | _ => [] end) t.

(** The step images a trace asks for, in order. *)
Definition single_images (t : list event) : list single_image :=
  flat_map (fun e => match e with EvSingleImage img => [img] | _ => [] end) t.

End Region.

(* ================================================================== *)
(** ** [export] and [monitor_task] of [src/ETL/cloudfree/utils.py]
    (lines 29 to 71)

    What the task answers is given with the call: whether [task.start()]
    raises, and the state that the [k]-th call of [task.status()] reports. *)

Module TaskUtils.

Import Exporter.

Section TaskExport.

(** The type of an [ee.Image]. *)
Variable Img : Type.

(** The arguments of [ee.batch.Export.image.toCloudStorage]; the image is
    [image.clip(region)]. *)
Record export_task : Type := {
  et_image : Img;
  et_region : polygon;
  et_bucket : string;
  et_description : string;
  et_fileNamePrefix : string;
  et_scale : Z;
  et_maxPixels : Z;
  et_fileDimensions : option Z
}.

Inductive event : Type :=
  | EvCreate (task : export_task)    (* toCloudStorage(...) *)
  | EvStart                          (* task.start() *)
  | EvStatus (k : nat)               (* the k-th task.status() *)
  | EvLogError (msg : string)        (* logger.error *)
  | EvLogInfo (state : string).      (* logger.info(task.status()) *)

Record answers : Type := {
  start_raises : option exn;
  status_at : nat -> string
}.

Definition in_progress (state : string) : bool :=
  String.eqb state "READY" || String.eqb state "RUNNING".

(** [monitor_task(task)]; [k] counts the calls of [task.status()] made so
    far and [fuel] bounds the number of times the condition is
    evaluated. *)
Fixpoint monitor_task (fuel : nat) (a : answers) (k : nat) : M event unit :=
  match fuel with
  | O => out_of_fuel
  | S fuel' =>
      emit (EvStatus k);;;
      if in_progress (status_at a k) then
        emit (EvStatus (S k));;;
        emit (EvLogInfo (status_at a (S k)));;;
        monitor_task fuel' a (S (S k))
      else ret tt
  end.

(** [task.start()]: an [EEException] is the one exception [export]
    catches. *)
Definition start (a : answers) : M event unit :=
  emit EvStart;;;
  match start_raises a with
  | Some e => raise e
  | None => ret tt
  end.

Definition export (fuel : nat) (a : answers) (image : Img) (region : polygon)
    (filename drive_folder : string) (monitor : bool)
    (file_dimensions : option Z) : M event export_task :=
  let task :=
    {| et_image := image;
       et_region := region;
       et_bucket := "ee-data-to-be-split";
       et_description := filename;
       et_fileNamePrefix := drive_folder ++ "/" ++ filename;
       et_scale := 10;
       et_maxPixels := 10 ^ 13;
       et_fileDimensions := file_dimensions |} in
  emit (EvCreate task);;;
  started <-
    match start a with
    | (t, Raises (EEException msg)) =>
        (t, Returns tt);;;
        emit (EvLogError ("Task not started! Got exception " ++ msg));;;
        ret false
    | m => m;;; ret true
    end;;
  if started then
    (if monitor then monitor_task fuel a O else ret tt);;;
    ret task
  else ret task.

(** The status calls of a trace, and the states it logs. *)
Definition status_calls (t : list event) : list nat :=
  flat_map (fun e => match e with EvStatus k => [k] | _ => [] end) t.

Definition logged_states (t : list event) : list string :=
  flat_map (fun e => match e with EvLogInfo state => [state] | _ => [] end) t.

End TaskExport.

End TaskUtils.

(* ================================================================== *)
(** ** [process_filename] and [load_tif] of [src/utils.py]

    [datetime.strptime(s, "%Y-%m-%d")] and the [datetime(int(y), int(m),
    int(d))] of the extended file names are parameters: each gives a date or
    fails with [ValueError].  A raster is the list of its bands; the
    division by 10000 of [load_tif] is a parameter too. *)

Module Utils.

Import PyDate.

Inductive error : Type :=
  | ValueError
  | IndexError
  | AssertionError
  | ZeroDivisionError.

Inductive result (A : Type) : Type :=
  | Done (a : A)
  | Raise (e : error)
  | NoFuel.

Arguments Done {A} a.
Arguments Raise {A} e.
Arguments NoFuel {A}.

Section ProcessFilename.

Variable strptime : string -> option date.
Variable make_date : string -> string -> string -> option date.

(** [process_filename(filename, include_extended_filenames)]; [Done None]
    is the [return None] after the message is printed. *)
Definition process_filename (filename : string)
    (include_extended_filenames : bool)
  : result (option (string * date * date)) :=
  match PyText.split "_" (PyText.drop_last 4 filename) with
  | [identifier; start_date_str; end_date_str] =>
      match strptime start_date_str with
      | None => Raise ValueError
      | Some start_date =>
          match strptime end_date_str with
          | Some end_date => Done (Some (identifier, start_date, end_date))
          | None =>
              if include_extended_filenames then
                match PyText.split "-" end_date_str with
                | end_year :: end_month :: end_day :: id_number :: _ =>
                    match make_date end_year end_month end_day with
                    | Some end_date =>
                        Done (Some (identifier ++ "-" ++ id_number,
                                    start_date, end_date))
                    | None => Raise ValueError
                    end
                | _ => Raise IndexError
                end
              else Done None
          end
      end
  | _ => Raise ValueError
  end.

End ProcessFilename.

Section LoadTif.

Variable D : Type.
Variable BANDS : list string.
Variable scale : D -> D.

(** The [while] loop of [load_tif]: [da.isel(band=slice(cur_band, cur_band +
    bands_per_timestep))] is the part of the list from [cur_band]. *)
Fixpoint while_cur_band (fuel : nat) (da : list D)
    (bands_per_timestep num_bands cur_band : nat)
    (da_split_by_time : list (list D)) : result (list (list D)) :=
  match fuel with
  | O => NoFuel
  | S fuel' =>
      if (cur_band + bands_per_timestep <=? num_bands)%nat then
        while_cur_band fuel' da bands_per_timestep num_bands
          (cur_band + bands_per_timestep)
          (da_split_by_time
           ++ [firstn bands_per_timestep (skipn cur_band da)])%list
      else Done da_split_by_time
  end.

(** [load_tif]: the time steps with their dates; [raster] is what
    [xr.open_rasterio(filepath)] reads.  [xr.concat] refuses an empty
    list. *)
Definition load_tif (fuel : nat) (raster : list D) (start_date : date)
    (days_per_timestep : Z) : result (list (date * list D)) :=
  let da := map scale raster in
  let bands_per_timestep := List.length BANDS in
  let num_bands := List.length da in
  if (bands_per_timestep =? 0)%nat then Raise ZeroDivisionError
  else if negb (num_bands mod bands_per_timestep =? 0)%nat then Raise AssertionError
  else
    match while_cur_band fuel da bands_per_timestep num_bands 0 [] with
    | Done da_split_by_time =>
        let timesteps :=
          map (fun i => start_date + days_per_timestep * Z.of_nat i)
              (seq 0 (List.length da_split_by_time)) in
        match da_split_by_time with
        | [] => Raise ValueError
        | _ => Done (List.combine timesteps da_split_by_time)
        end
    | Raise e => Raise e
    | NoFuel => NoFuel
    end.

End LoadTif.

End Utils.

(* ================================================================== *)
(** ** [LabelExporter.export]: the request of a label, for the statements *)

Module Labels.

Import PyDate Exporter.

(** The call of [_export_using_point_and_dates] for a row. *)
Definition request (fuel : nat) (today : date) (self : LabelExporter)
    (row : label) : Run ExportOutcome :=
  _export_using_point_and_dates fuel today self
    (label_bbox row) (label_start row) (label_end row).

(** The test of line 252: the storage check is on and the output of the
    row is in the list of the bucket. *)
Definition output_exists (self : LabelExporter) (row : label) : bool :=
  check_gcp (args self)
  && PyStr.mem
       ("tifs/"
        ++ fst (_generate_filename_and_desc
                  (label_bbox row) (label_start row) (label_end row))
        ++ ".tif")
       (cloud_tif_list self).

End Labels.

(* ================================================================== *)
(** ** Lemmas: the concrete inputs are what they are said to be *)

Lemma example_floats_are_doubles :
  PyFloat.is_double_of 72 100000 Example.f_0_00072 = true
  /\ PyFloat.is_double_of (-72) 100000 Example.f_m0_00072 = true
  /\ PyFloat.is_double_of 100004 100000 Example.f_1_00004 = true
  /\ PyFloat.is_double_of 100006 100000 Example.f_1_00006 = true
  /\ PyFloat.is_double_of 1 1 Example.f_1_0 = true.
Proof. repeat split; vm_compute; reflexivity. Qed.

(** The two calendar functions are inverse of each other on the days of the
    years 2000 to 2030. *)
Lemma calendar_round_trip_2000_2030 :
  forallb (fun i =>
             let n := PyDate._ymd2ord 2000 1 1 + Z.of_nat i in
             let '(y, m, d) := PyDate._ord2ymd n in
             PyDate._ymd2ord y m d =? n)
          (seq 0 (Z.to_nat 11323))
  = true
  /\ PyDate._ymd2ord 2000 1 1 + 11322 = PyDate._ymd2ord 2030 12 31.
Proof. split; vm_compute; reflexivity. Qed.

Lemma example_dates_print :
  map PyDate.isoformat
      [Example.start_2020; Example.end_2021; Example.today; Example.tomorrow]
  = ["2020-01-01"; "2021-01-01"; "2021-06-01"; "2021-06-02"].
Proof. reflexivity. Qed.

(* ================================================================== *)
(** ** Lemmas: the effect monad *)

Lemma bind_returns {E A B} (t : list E) (a : A) (k : A -> M E B) :
  bind (t, Returns a) k = ((t ++ fst (k a))%list, snd (k a)).
Proof. simpl. destruct (k a). reflexivity. Qed.

(* ================================================================== *)
(** ** Lemmas: the time steps of [_export_for_polygon] *)

Section TimeSteps.

Import PyDate Exporter.

Variable fast_ : bool.
Variable region : polygon.
Variable increment : Z.

Lemma export_func_call (s e : date) :
  export_func fast_ region s e =
  ([EvSingleImage (image_of fast_ region (s, e))],
   Returns (image_of fast_ region (s, e))).
Proof. unfold export_func. destruct fast_; reflexivity. Qed.

Lemma steps_S (start_date : date) (n : nat) :
  Spec.steps start_date increment (S n) =
  (start_date, start_date + increment)
    :: Spec.steps (start_date + increment) increment n.
Proof.
  unfold Spec.steps. cbn [seq map]. f_equal.
  - f_equal; lia.
  - rewrite <- seq_shift, map_map.
    apply map_ext. intros i. f_equal; lia.
Qed.

(** With a positive increment the loop stops after the [n] steps that fit,
    whatever fuel above [n] it is given. *)
Lemma while_cur_date_steps (end_date : date) (n : nat) :
  0 < increment ->
  forall (cur_date : date) (acc : list single_image) (fuel : nat),
    cur_date + Z.of_nat n * increment <= end_date ->
    end_date < cur_date + (Z.of_nat n + 1) * increment ->
    (n < fuel)%nat ->
    while_cur_date fuel (export_func fast_) region increment end_date cur_date acc =
    (map EvSingleImage
         (map (image_of fast_ region) (Spec.steps cur_date increment n)),
     Returns
       (acc ++ map (image_of fast_ region) (Spec.steps cur_date increment n))%list).
Proof.
  intros Hpos. induction n as [|n IH]; intros cur acc fuel Hle Hlt Hfuel.
  - destruct fuel as [|fuel]; [lia|].
    cbn [while_cur_date]. unfold add_days.
    destruct (Z.leb_spec (cur + increment) end_date) as [H|H]; [lia|].
    unfold Spec.steps. cbn [seq map]. rewrite app_nil_r. reflexivity.
  - destruct fuel as [|fuel]; [lia|].
    cbn [while_cur_date]. unfold add_days.
    destruct (Z.leb_spec (cur + increment) end_date) as [H|H]; [|nia].
    rewrite export_func_call, bind_returns.
    rewrite (IH (cur + increment)) by lia.
    rewrite steps_S. cbn [fst snd map app].
    rewrite <- app_assoc. reflexivity.
Qed.

(** A loop that returns has made the steps that fit, and only them. *)
Lemma while_cur_date_returns_steps (end_date : date) (fuel : nat) :
  0 < increment ->
  forall (cur_date : date) (acc l : list single_image),
    outcome (while_cur_date fuel (export_func fast_) region increment
               end_date cur_date acc) = Returns l ->
    exists k : nat,
      l = (acc ++ map (image_of fast_ region)
                      (Spec.steps cur_date increment k))%list
      /\ end_date < cur_date + (Z.of_nat k + 1) * increment
      /\ (k = 0%nat \/ cur_date + Z.of_nat k * increment <= end_date).
Proof.
  intros Hpos. induction fuel as [|fuel IH]; intros cur acc l H; [discriminate|].
  cbn [while_cur_date] in H. unfold add_days in H.
  destruct (Z.leb_spec (cur + increment) end_date) as [Hle|Hgt].
  - rewrite export_func_call, bind_returns in H.
    change (outcome (?a, ?b)) with b in H.
    destruct (IH (cur + increment) _ l H) as [k [Hl [Hlt Hk]]].
    exists (S k). rewrite steps_S. cbn [map].
    split; [rewrite Hl, <- app_assoc; reflexivity|].
    split; [lia|right]. destruct Hk as [->|Hk]; lia.
  - cbn in H. inversion H; subst l. exists 0%nat.
    split; [cbn; rewrite app_nil_r; reflexivity|]. split; [lia|left; reflexivity].
Qed.

(** A loop whose condition fails at once returns what it was given. *)
Lemma while_cur_date_stops (end_date cur_date : date)
    (acc : list single_image) (fuel : nat) :
  end_date < cur_date + increment ->
  while_cur_date (S fuel) (export_func fast_) region increment end_date cur_date acc
  = ([], Returns acc).
Proof.
  intros H. cbn [while_cur_date]. unfold add_days.
  destruct (Z.leb_spec (cur_date + increment) end_date); [lia|reflexivity].
Qed.

End TimeSteps.

(** The loop under any step function that returns: nothing is checked, so
    nothing is raised, and a step that is not positive keeps the loop going
    for ever. *)
Section AnyStepImage.

Import PyDate Exporter.

Variable step_image : polygon -> date -> date -> Run single_image.
Variable region : polygon.
Variable increment : Z.
Variable end_date : date.

Hypothesis step_image_returns :
  forall r s e, exists t img, step_image r s e = (t, Returns img).




End AnyStepImage.

Lemma windows_bounds (start_date end_date d : Z) :
  start_date <= end_date -> 0 < d ->
  let n := Z.to_nat ((end_date - start_date) / d) in
  start_date + Z.of_nat n * d <= end_date /\
  end_date < start_date + (Z.of_nat n + 1) * d.
Proof.
  intros Hle Hd n.
  assert (H0 : 0 <= (end_date - start_date) / d) by (apply Z.div_pos; lia).
  unfold n. rewrite Z2Nat.id by exact H0.
  pose proof (Z.mul_div_le (end_date - start_date) d Hd).
  pose proof (Z.mul_succ_div_gt (end_date - start_date) d Hd).
  split; nia.
Qed.

Lemma in_steps (start_date d : Z) (n : nat) (w : Z * Z) :
  In w (Spec.steps start_date d n) <->
  exists i, 0 <= i < Z.of_nat n /\ w = (start_date + i * d, start_date + i * d + d).
Proof.
  unfold Spec.steps. rewrite in_map_iff. split.
  - intros [i [<- Hi]]. apply in_seq in Hi. exists (Z.of_nat i). split; [lia|reflexivity].
  - intros [i [Hi ->]]. exists (Z.to_nat i). split.
    + rewrite Z2Nat.id by lia. reflexivity.
    + apply in_seq. lia.
Qed.

Lemma windows_of_image_of (f : bool) (r : Exporter.polygon) (l : list (Z * Z)) :
  Exporter.windows_of (map (Exporter.image_of f r) l) = l.
Proof.
  unfold Exporter.windows_of. rewrite map_map.
  induction l as [|[a b] l IH]; [reflexivity|].
  cbn [map]. rewrite IH. reflexivity.
Qed.

(* ================================================================== *)
(** ** Lemmas: the constructor and the ledger checks *)

Section LedgerLemmas.

Import PyDate Exporter Ledger.

Lemma check_earthengine_auth_total (remote : Remote) (self : EarthEngineExporter) :
  check_earthengine_auth remote self =
  (let c := if truthy (credentials self) then credentials self else None in
   if initialize_raises remote c
   then [EvInitialize c;
         EvLogError
           "This code doesn't work unless you have authenticated your earthengine account"]
   else [EvInitialize c],
   Returns tt).
Proof.
  unfold check_earthengine_auth, ee_Initialize.
  destruct (truthy (credentials self)); cbn;
    match goal with |- context [initialize_raises ?r ?c] =>
      destruct (initialize_raises r c) end; reflexivity.
Qed.

Lemma post_init_returns (remote : Remote) (a : LabelExporterArgs) :
  outcome (__post_init__ remote a) = Returns (built remote a).
Proof.
  unfold __post_init__. rewrite check_earthengine_auth_total.
  unfold built, get_cloud_tif_list, get_ee_task_list.
  destruct (check_gcp a), (check_ee a); reflexivity.
Qed.

Lemma built_lists_follow_flags (remote : Remote) (a : LabelExporterArgs) :
  lists_follow_flags (built remote a).
Proof.
  unfold lists_follow_flags, built. cbn. split; intros ->; reflexivity.
Qed.

Lemma post_init_lists_follow_flags (remote : Remote) (a : LabelExporterArgs)
    (self : LabelExporter) :
  outcome (__post_init__ remote a) = Returns self -> lists_follow_flags self.
Proof.
  rewrite post_init_returns. intros H. inversion H. apply built_lists_follow_flags.
Qed.

(** The if-chain of [_export_using_point_and_dates] takes the decision of
    the specification, after reading the checks its flags allow. *)
Lemma export_request_cases (fuel : nat) (today : date) (self : LabelExporter)
    (bbox : BoundingBox) (start_date end_date : date) :
  lists_follow_flags self ->
  _export_using_point_and_dates fuel today self bbox start_date end_date =
  match Spec.skip_outcome (decision_for self bbox start_date end_date) with
  | Some o =>
      (map EvConsult
         (checks_before self (decision_for self bbox start_date end_date)),
       Returns o)
  | None =>
      bind (map EvConsult (checks_before self Spec.Proceed), Returns tt)
           (fun _ => submission fuel today self bbox start_date end_date)
  end.
Proof.
  intros [Hgcp Hee].
  unfold _export_using_point_and_dates, submission, decision_for, Spec.evaluate,
    Spec.exists_, Spec.is_pending, Spec.at_capacity, Spec.snapshot_of,
    Spec.output_path, Spec.default_cap, checks_before, and_consult.
  destruct (_generate_filename_and_desc bbox start_date end_date) as [f d].
  cbn [fst snd Spec.existing_outputs Spec.pending_jobs].
  destruct (check_gcp (args self)) eqn:G; destruct (check_ee (args self)) eqn:E;
    try (rewrite (Hgcp eq_refl)); try (rewrite (Hee eq_refl));
    cbn [PyStr.mem existsb List.length Z.of_nat Z.leb Z.compare];
    repeat match goal with
    | |- context [PyStr.mem ?x ?l] => destruct (PyStr.mem x l)
    | |- context [3000 <=? ?n] => destruct (3000 <=? n)
    end; cbn;
    try reflexivity;
    match goal with
    | |- context [_export_for_polygon ?a ?b ?c ?d ?e ?f ?g ?h ?i] =>
        destruct (_export_for_polygon a b c d e f g h i) as [t [[]| |]]; reflexivity
    end.
Qed.

Lemma remote_calls_consults (l : list check) :
  remote_calls (map EvConsult l) = [].
Proof. induction l; [reflexivity|assumption]. Qed.

(** A date in the future stops [_export_for_polygon] before anything else. *)
Lemma export_for_polygon_future (fuel : nat) (today : date)
    (self : EarthEngineExporter) (p : polygon) (start_date end_date : date)
    (file_name_prefix description : string) (dest_bucket : option string) :
  today < end_date ->
  _export_for_polygon fuel today self p start_date end_date
    file_name_prefix description dest_bucket
  = ([], Raises (ValueError (isoformat end_date ++ " is in the future"))).
Proof.
  intros H. unfold _export_for_polygon.
  destruct (Z.ltb_spec today end_date); [reflexivity|lia].
Qed.

End LedgerLemmas.

(* ================================================================== *)
(** ** Lemmas: strings *)

Section StringLemmas.

Lemma prefix_length (n : nat) (s : string) :
  String.length (PyStr.prefix n s) = Nat.min n (String.length s).
Proof.
  revert s. induction n as [|n IH]; intros [|c s]; cbn; try reflexivity.
  rewrite IH. reflexivity.
Qed.

Lemma replace_length (old new : ascii) (s : string) :
  String.length (PyStr.replace old new s) = String.length s.
Proof. induction s as [|c s IH]; cbn; [reflexivity|]. rewrite IH. reflexivity. Qed.

Lemma get_prefix (i n : nat) (s : string) :
  (i < n)%nat -> String.get i (PyStr.prefix n s) = String.get i s.
Proof.
  revert i s. induction n as [|n IH]; intros i s Hi; [lia|].
  destruct s as [|c s]; [reflexivity|].
  destruct i as [|i]; cbn; [reflexivity|]. apply IH. lia.
Qed.

Lemma get_replace (i : nat) (old new : ascii) (s : string) :
  String.get i (PyStr.replace old new s) =
  option_map (fun c => if Ascii.eqb c old then new else c) (String.get i s).
Proof.
  revert i. induction s as [|c s IH]; intros i; [destruct i; reflexivity|].
  destruct i as [|i]; cbn; [reflexivity|]. apply IH.
Qed.

Lemma get_some_lt (i : nat) (s : string) (c : ascii) :
  String.get i s = Some c -> (i < String.length s)%nat.
Proof.
  revert i. induction s as [|c' s IH]; intros i H; [destruct i; discriminate|].
  destruct i as [|i]; cbn; [lia|]. cbn in H. apply IH in H. lia.
Qed.

Lemma dash_two_replaces (c : ascii) :
  (let c1 := if Ascii.eqb c "." then "-"%char else c in
   if Ascii.eqb c1 "=" then "-"%char else c1) = Naming.dash c.
Proof.
  unfold Naming.dash. cbv zeta.
  destruct (Ascii.eqb c ".") eqn:Hdot; [reflexivity|].
  cbn [orb]. reflexivity.
Qed.

Lemma dash_not_dot_eq (c : ascii) :
  Naming.dash c <> "."%char /\ Naming.dash c <> "="%char.
Proof.
  unfold Naming.dash.
  destruct (Ascii.eqb c ".") eqn:Hdot; cbn [orb]; [split; discriminate|].
  destruct (Ascii.eqb c "=") eqn:Heq; [split; discriminate|].
  apply Ascii.eqb_neq in Hdot. apply Ascii.eqb_neq in Heq. split; assumption.
Qed.

Lemma description_chars (f : string) (i : nat) :
  (i < 100)%nat ->
  String.get i (PyStr.prefix 100 (PyStr.replace "=" "-" (PyStr.replace "." "-" f)))
  = option_map Naming.dash (String.get i f).
Proof.
  intros Hi. rewrite get_prefix by exact Hi. rewrite !get_replace.
  destruct (String.get i f) as [c|]; [|reflexivity].
  cbn [option_map]. f_equal. apply dash_two_replaces.
Qed.

Lemma description_length (f : string) :
  String.length (PyStr.prefix 100 (PyStr.replace "=" "-" (PyStr.replace "." "-" f)))
  = Nat.min 100 (String.length f).
Proof. rewrite prefix_length, !replace_length. reflexivity. Qed.

End StringLemmas.

(* ================================================================== *)
(** ** Lemmas: rounding *)

Section RoundingLemmas.

Import PyFloat.

Lemma quotient_near (num den k q r : Z) :
  0 < den -> num = den * q + r -> 0 <= r < den ->
  - den < 2 * (num - k * den) < den ->
  q = k \/ q = k - 1.
Proof.
  intros Hden Hdm Hr Habs.
  assert (Hup : q - k < 1).
  { destruct (Z_lt_le_dec (q - k) 1) as [H|H]; [exact H|exfalso].
    assert (den * 1 <= den * (q - k))
      by (apply Z.mul_le_mono_nonneg_l; lia).
    lia. }
  assert (Hlo : - 2 < q - k).
  { destruct (Z_lt_le_dec (- 2) (q - k)) as [H|H]; [exact H|exfalso].
    assert (den * (q - k) <= den * (- 2))
      by (apply Z.mul_le_mono_nonneg_l; lia).
    lia. }
  lia.
Qed.

Lemma div_half_even_near (num den k : Z) :
  0 < den -> 2 * Z.abs (num - k * den) < den ->
  div_half_even num den = k.
Proof.
  intros Hden Hnear. unfold div_half_even.
  pose proof (Z.div_mod num den ltac:(lia)) as Hdm.
  pose proof (Z.mod_pos_bound num den Hden) as Hr.
  assert (Habs : - den < 2 * (num - k * den) < den) by lia.
  pose proof (quotient_near num den k _ _ Hden Hdm Hr Habs) as Hk.
  set (q := num / den) in *. set (r := num mod den) in *.
  destruct Hk as [Hk|Hk]; subst q.
  - assert (Hlt : 2 * r < den) by (rewrite Hk in Hdm; lia).
    destruct (Z.ltb_spec (2 * r) den); [exact Hk|lia].
  - assert (Hgt : den < 2 * r)
      by (rewrite Hk in Hdm; rewrite Z.mul_sub_distr_l in Hdm; lia).
    destruct (Z.ltb_spec (2 * r) den); [lia|].
    destruct (Z.ltb_spec den (2 * r)); lia.
Qed.

Lemma round4_near (x : float) (s : bool) (k : Z) :
  Naming.near4 x s k -> round4 x = F4dec s (Z.to_N k).
Proof.
  destruct x as [s'| | |s' m e]; cbn [Naming.near4 round4]; try tauto.
  - intros [-> ->]. reflexivity.
  - intros [-> [Hk H]]. f_equal. f_equal. unfold scaled4.
    destruct (Z.leb_spec 0 e) as [He|He]; [exact H|].
    apply div_half_even_near; [apply Z.pow_pos_nonneg; lia|exact H].
Qed.

Lemma round4_same_near (x y : float) :
  Naming.same_near4 x y -> round4 x = round4 y.
Proof.
  intros [s [k [Hx Hy]]].
  rewrite (round4_near _ _ _ Hx), (round4_near _ _ _ Hy). reflexivity.
Qed.

End RoundingLemmas.

(* ================================================================== *)
(** ** Lemmas: bands *)

Section BandLemmas.

Import CloudFree.

Variable D : Type.
Variable BANDS : list string.
Variable rename : list string -> string -> string.

Lemma get_band_name (name : string) (img : image D) (b : band D) :
  get_band D name img = Some b -> fst b = name.
Proof.
  unfold get_band. intros H. apply find_some in H. destruct H as [_ H].
  apply String.eqb_eq. exact H.
Qed.

Lemma get_band_found (name : string) (img : image D) :
  In name (band_names D img) -> exists b, get_band D name img = Some b.
Proof.
  unfold band_names, get_band. intros H. apply in_map_iff in H.
  destruct H as [b [Hb Hin]].
  destruct (find (fun b0 => String.eqb (fst b0) name) img) as [b'|] eqn:F.
  - exists b'. reflexivity.
  - exfalso. pose proof (find_none _ _ F b Hin) as Hn. cbn in Hn.
    rewrite Hb, String.eqb_refl in Hn. discriminate.
Qed.

Lemma select_names (names : list string) (img : image D) (bs : image D) :
  select D names img = Ok bs -> band_names D bs = names.
Proof.
  revert bs. induction names as [|name names IH]; intros bs H; cbn in H.
  - inversion H. reflexivity.
  - destruct (get_band D name img) as [b|] eqn:G; [|discriminate].
    destruct (select D names img) as [bs'|] eqn:S; [|discriminate].
    inversion H; subst bs. unfold band_names. cbn [map].
    rewrite (get_band_name _ _ _ G). f_equal. apply (IH bs' eq_refl).
Qed.

Lemma select_total (names : list string) (img : image D) :
  (forall name, In name names -> In name (band_names D img)) ->
  exists bs, select D names img = Ok bs.
Proof.
  induction names as [|name names IH]; intros H; cbn.
  - exists []. reflexivity.
  - destruct (get_band_found name img (H name (or_introl eq_refl))) as [b ->].
    destruct IH as [bs ->]; [intros n Hn; apply H; right; exact Hn|].
    exists (b :: bs). reflexivity.
Qed.

Lemma addBands_data (dst src : image D) :
  band_data D (addBands D rename dst src) = (band_data D dst ++ band_data D src)%list.
Proof.
  revert dst. induction src as [|[name d] src IH]; intros dst; cbn [addBands].
  - cbn. rewrite app_nil_r. reflexivity.
  - rewrite IH. unfold band_data. rewrite map_app. cbn.
    rewrite <- app_assoc. reflexivity.
Qed.

Lemma iterate_combine_bands (images : list (image D)) :
  (forall img, In img images ->
     forall name, In name BANDS -> In name (band_names D img)) ->
  forall first : option (image D),
  exists combined,
    iterate D (combine_bands D BANDS rename) images first = Ok combined
    /\ band_data D (bands_of D combined)
       = (band_data D (bands_of D first)
          ++ List.concat (map (selected D BANDS) images))%list.
Proof.
  induction images as [|img images IH]; intros Hall first; cbn [iterate].
  - exists first. split; [reflexivity|]. cbn. rewrite app_nil_r. reflexivity.
  - destruct (select_total BANDS img (Hall img (or_introl eq_refl))) as [bs Hbs].
    unfold combine_bands at 1. rewrite Hbs.
    destruct (IH (fun i Hi => Hall i (or_intror Hi))
                 (Some (match first with
                        | None => bs
                        | Some previous => addBands D rename previous bs
                        end))) as [combined [Hc Hd]].
    exists combined. split; [exact Hc|].
    rewrite Hd. cbn [map List.concat bands_of]. unfold selected at 2. rewrite Hbs.
    rewrite app_assoc. f_equal.
    destruct first as [previous|]; cbn [bands_of].
    + apply addBands_data.
    + reflexivity.
Qed.

Lemma iterate_from_some (images : list (image D)) (state : image D)
    (combined : option (image D)) :
  iterate D (combine_bands D BANDS rename) images (Some state) = Ok combined ->
  exists img, combined = Some img.
Proof.
  revert state. induction images as [|i images IH]; intros state H; cbn [iterate] in H.
  - inversion H. exists state. reflexivity.
  - destruct (combine_bands D BANDS rename i (Some state)) as [state'|];
      [|discriminate].
    apply (IH state' H).
Qed.

Lemma selected_length (img : image D) :
  (forall name, In name BANDS -> In name (band_names D img)) ->
  List.length (selected D BANDS img) = List.length BANDS.
Proof.
  intros H. destruct (select_total BANDS img H) as [bs Hbs].
  unfold selected. rewrite Hbs. unfold band_data. rewrite length_map.
  rewrite <- (select_names _ _ _ Hbs). unfold band_names. rewrite length_map.
  reflexivity.
Qed.

Lemma concat_selected_length (images : list (image D)) :
  (forall img, In img images ->
     forall name, In name BANDS -> In name (band_names D img)) ->
  List.length (List.concat (map (selected D BANDS) images))
  = (List.length images * List.length BANDS)%nat.
Proof.
  induction images as [|img images IH]; intros Hall; [reflexivity|].
  cbn [map List.concat List.length]. rewrite length_app.
  rewrite (selected_length img (Hall img (or_introl eq_refl))).
  rewrite IH by (intros i Hi; apply Hall; right; exact Hi). cbn. reflexivity.
Qed.

End BandLemmas.

(* ================================================================== *)
(** ** Lemmas: the loop over the labels *)

Section LabelLemmas.

Import PyDate Exporter.

Variable fuel : nat.
Variable today : date.
Variable self : LabelExporter.

Lemma request_exists (row : label) :
  Labels.output_exists self row = true ->
  Labels.request fuel today self row
  = ([EvConsult StorageCheck], Returns Skipped_Exists).
Proof.
  unfold Labels.output_exists, Labels.request, _export_using_point_and_dates,
    and_consult.
  destruct (_generate_filename_and_desc _ _ _) as [f d]. cbn [fst].
  intros H. apply andb_true_iff in H. destruct H as [-> ->]. reflexivity.
Qed.

Lemma request_not_exists (row : label) (o : ExportOutcome) :
  Labels.output_exists self row = false ->
  outcome (Labels.request fuel today self row) = Returns o ->
  is_exporting o = true.
Proof.
  unfold Labels.output_exists, Labels.request, _export_using_point_and_dates,
    and_consult.
  destruct (_generate_filename_and_desc _ _ _) as [f d]. cbn [fst].
  intros H. unfold outcome.
  destruct (check_gcp (args self)); cbn [andb] in H; [rewrite H|];
    (destruct (check_ee (args self)); cbn;
     repeat match goal with
     | |- context [PyStr.mem ?x ?l] => destruct (PyStr.mem x l)
     | |- context [3000 <=? ?n] => destruct (3000 <=? n)
     end; cbn;
     try (intros Ho; inversion Ho; reflexivity);
     match goal with
     | |- context [_export_for_polygon ?a ?b ?c ?d ?e ?f ?g ?h ?i] =>
         destruct (_export_for_polygon a b c d e f g h i) as [t [[]| |]]; cbn;
         intros Ho; inversion Ho; reflexivity
     end).
Qed.

Lemma export_rows_cons (row : label) (labels : list label) (a b : Z) :
  export_rows fuel today self (row :: labels) a b
  = bind (Labels.request fuel today self row)
         (fun o => if is_exporting o
                   then export_rows fuel today self labels (a + 1) b
                   else export_rows fuel today self labels a (b + 1)).
Proof. reflexivity. Qed.

Lemma bind_outcome_returns {E A B} (m : M E A) (k : A -> M E B) (b : B) :
  outcome (bind m k) = Returns b ->
  exists a, outcome m = Returns a /\ outcome (k a) = Returns b.
Proof.
  destruct m as [t [a| |]]; cbn; try discriminate.
  destruct (k a) as [t' r] eqn:K. cbn. intros ->. exists a.
  rewrite K. split; reflexivity.
Qed.

Lemma export_rows_counts (labels : list label) :
  forall (a b x y : Z),
    outcome (export_rows fuel today self labels a b) = Returns (x, y) ->
    y = b + Z.of_nat (List.length (filter (Labels.output_exists self) labels))
    /\ x + y = a + b + Z.of_nat (List.length labels).
Proof.
  induction labels as [|row labels IH]; intros a b x y H.
  - cbn in H. inversion H. cbn. lia.
  - rewrite export_rows_cons in H.
    apply bind_outcome_returns in H. destruct H as [o [Ho Hrest]].
    cbn [filter List.length].
    destruct (Labels.output_exists self row) eqn:Hex.
    + rewrite (request_exists row Hex) in Ho. inversion Ho; subst o.
      cbn [is_exporting] in Hrest. apply IH in Hrest. cbn [List.length]. lia.
    + rewrite (request_not_exists row o Hex Ho) in Hrest.
      apply IH in Hrest. lia.
Qed.

Lemma export_outcome_returns (labels : list label) (c : Z * Z) :
  outcome (export fuel today self labels) = Returns c ->
  outcome (export_rows fuel today self labels 0 0) = Returns c.
Proof.
  unfold export. intros H. apply bind_outcome_returns in H.
  destruct H as [c0 [H0 H1]]. rewrite H0. f_equal.
  apply bind_outcome_returns in H1. destruct H1 as [u1 [_ H1]].
  apply bind_outcome_returns in H1. destruct H1 as [u2 [_ H1]].
  cbn in H1. inversion H1. reflexivity.
Qed.

Lemma export_rows_stops (pre post : list label) (row : label) (e : exn) :
  outcome (Labels.request fuel today self row) = Raises e ->
  forall a b,
    export_rows fuel today self (pre ++ row :: post) a b
    = export_rows fuel today self (pre ++ [row]) a b.
Proof.
  intros Hrow. induction pre as [|r pre IH]; intros a b.
  - cbn [app]. rewrite !export_rows_cons.
    destruct (Labels.request fuel today self row) as [t o].
    unfold outcome in Hrow. cbn [snd] in Hrow. subst o. reflexivity.
  - cbn [app]. rewrite !export_rows_cons.
    destruct (Labels.request fuel today self r) as [t [o| |]]; try reflexivity.
    cbn [bind]. destruct (is_exporting o); rewrite IH; reflexivity.
Qed.

Lemma export_rows_does_not_return (pre : list label) (row : label) (e : exn) :
  outcome (Labels.request fuel today self row) = Raises e ->
  forall a b counts,
    outcome (export_rows fuel today self (pre ++ [row]) a b) <> Returns counts.
Proof.
  intros Hrow. induction pre as [|r pre IH]; intros a b counts H.
  - cbn [app] in H. rewrite export_rows_cons in H.
    apply bind_outcome_returns in H. destruct H as [o [Ho _]].
    rewrite Hrow in Ho. discriminate.
  - cbn [app] in H. rewrite export_rows_cons in H.
    apply bind_outcome_returns in H. destruct H as [o [_ H]].
    destruct (is_exporting o); apply IH in H; exact H.
Qed.

Lemma export_rows_all_exist (labels : list label) :
  (forall row, In row labels -> Labels.output_exists self row = true) ->
  forall a b,
    export_rows fuel today self labels a b
    = (map (fun _ => EvConsult StorageCheck) labels,
       Returns (a, b + Z.of_nat (List.length labels))).
Proof.
  induction labels as [|row labels IH]; intros Hall a b.
  - cbn. rewrite Z.add_0_r. reflexivity.
  - rewrite export_rows_cons, (request_exists row (Hall row (or_introl eq_refl))).
    rewrite bind_returns. cbn [is_exporting].
    rewrite IH by (intros r Hr; apply Hall; right; exact Hr).
    cbn [fst snd app map List.length]. f_equal. f_equal. f_equal. lia.
Qed.

Lemma export_all_exist (labels : list label) :
  (forall row, In row labels -> Labels.output_exists self row = true) ->
  remote_calls (trace (export fuel today self labels)) = []
  /\ outcome (export fuel today self labels)
     = Returns (0, Z.of_nat (List.length labels)).
Proof.
  intros Hall. unfold export.
  rewrite (export_rows_all_exist labels Hall 0 0).
  rewrite bind_returns. cbn [fst snd Z.ltb Z.compare bind ret].
  assert (Hr : remote_calls (map (fun _ => EvConsult StorageCheck) labels) = []).
  { clear. induction labels; [reflexivity|assumption]. }
  destruct (0 <? 0 + Z.of_nat (List.length labels)); cbn;
    unfold remote_calls in *; rewrite ?filter_app, ?app_nil_r, Hr;
    split; reflexivity.
Qed.

End LabelLemmas.

(* ================================================================== *)
(** ** Theorems *)

Import PyDate PyFloat Exporter Ledger.

Lemma decision_exists_needs_gcp (self : LabelExporter) (bbox : BoundingBox)
    (start_date end_date : date) :
  lists_follow_flags self ->
  decision_for self bbox start_date end_date = Spec.Decide_Exists ->
  check_gcp (args self) = true.
Proof.
  intros [Hgcp _]. unfold decision_for, Spec.evaluate, Spec.exists_, Spec.snapshot_of.
  cbn [Spec.existing_outputs]. destruct (check_gcp (args self)); [reflexivity|].
  rewrite (Hgcp eq_refl). cbn [PyStr.mem existsb].
  repeat match goal with |- context [if ?b then _ else _] => destruct b end;
    discriminate.
Qed.

Lemma decision_skip_needs_ee (self : LabelExporter) (bbox : BoundingBox)
    (start_date end_date : date) :
  lists_follow_flags self ->
  decision_for self bbox start_date end_date = Spec.Decide_Pending \/
  decision_for self bbox start_date end_date = Spec.Decide_QuotaCapped ->
  check_ee (args self) = true.
Proof.
  intros [_ Hee]. unfold decision_for, Spec.evaluate, Spec.is_pending,
    Spec.at_capacity, Spec.snapshot_of, Spec.default_cap.
  cbn [Spec.pending_jobs]. destruct (check_ee (args self)); [reflexivity|].
  rewrite (Hee eq_refl). cbn [PyStr.mem existsb List.length Z.of_nat Z.leb Z.compare].
  intros [H|H]; revert H;
    repeat match goal with |- context [if ?b then _ else _] => destruct b end;
    discriminate.
Qed.

(** C1: for an exporter built by its constructor, a label request takes the
    decision of the specification's strict order -- existing output first,
    then pending job, then capacity (3000 tasks or more) -- reading the
    ledger lists in that order and no further than the first check that
    holds; it goes on to the submission only when all three fail. *)
Theorem ledger_checks_in_strict_order
    (remote : Remote) (a : LabelExporterArgs) (self : LabelExporter)
    (fuel : nat) (today : date) (bbox : BoundingBox)
    (start_date end_date : date) :
  outcome (__post_init__ remote a) = Returns self ->
  let storage := if check_gcp a then [StorageCheck] else [] in
  let r := _export_using_point_and_dates fuel today self bbox start_date end_date in
  match decision_for self bbox start_date end_date with
  | Spec.Decide_Exists =>
      r = ([EvConsult StorageCheck], Returns Skipped_Exists)
  | Spec.Decide_Pending =>
      r = (map EvConsult (storage ++ [PendingCheck]), Returns Skipped_Pending)
  | Spec.Decide_QuotaCapped =>
      r = (map EvConsult (storage ++ [PendingCheck; CapacityCheck]),
           Returns Skipped_QuotaCapped)
  | Spec.Proceed =>
      r = bind (map EvConsult (checks_before self Spec.Proceed), Returns tt)
               (fun _ => submission fuel today self bbox start_date end_date)
  end.
Proof.
  intros Hself storage r.
  pose proof (post_init_lists_follow_flags _ _ _ Hself) as Hflags.
  assert (Ha : args self = a).
  { rewrite post_init_returns in Hself. inversion Hself. reflexivity. }
  pose proof (export_request_cases fuel today self bbox start_date end_date Hflags)
    as Hcases.
  fold r in Hcases.
  pose proof (decision_exists_needs_gcp self bbox start_date end_date Hflags) as Hg.
  pose proof (decision_skip_needs_ee self bbox start_date end_date Hflags) as He.
  destruct (decision_for self bbox start_date end_date);
    cbn [Spec.skip_outcome] in Hcases; rewrite Hcases; unfold checks_before, storage;
    subst a.
  - rewrite (Hg eq_refl). reflexivity.
  - rewrite (He (or_introl eq_refl)). reflexivity.
  - rewrite (He (or_intror eq_refl)). reflexivity.
  - reflexivity.
Qed.

Lemma ledger_checks_in_strict_order_witness :
  _export_using_point_and_dates 5 Example.today
    (built (Example.remote_with false
              [Example.a_task Example.desc_tomorrow "RUNNING"])
           (Example.label_args true true))
    Example.box80 Example.start_2020 Example.tomorrow
  = ([EvConsult StorageCheck; EvConsult PendingCheck], Returns Skipped_Pending).
Proof.
  exact (ledger_checks_in_strict_order
           (Example.remote_with false
              [Example.a_task Example.desc_tomorrow "RUNNING"])
           (Example.label_args true true) _ 5 Example.today
           Example.box80 Example.start_2020 Example.tomorrow eq_refl).
Defined.

(** C2: for [start_date < end_date] and a positive [days_per_step] the loop
    of [_export_for_polygon] returns (given fuel for its steps) the images of
    the consecutive steps of [days_per_step] days from [start_date]; a step
    [cur, cur + days_per_step) is among them exactly when it starts a whole
    number of steps after [start_date] and [cur + days_per_step <= end_date],
    so a shorter last period is left out.  From 2021-01-01 to 2021-01-25 by
    10 days the steps are 01-01 to 01-11 and 01-11 to 01-21. *)
Theorem time_steps_greedy :
  (forall (fast_ : bool) (region : polygon) (start_date end_date : date)
          (days_per_step : Z),
      start_date < end_date -> 0 < days_per_step ->
      forall fuel : nat,
        (Z.to_nat ((end_date - start_date) / days_per_step) < fuel)%nat ->
        exists imgs,
          while_cur_date fuel (export_func fast_) region days_per_step
            end_date start_date [] = (map EvSingleImage imgs, Returns imgs)
          /\ windows_of imgs = Spec.windows start_date end_date days_per_step
          /\ (forall cur next,
                In (cur, next) (windows_of imgs) <->
                exists i, 0 <= i /\ cur = start_date + i * days_per_step
                          /\ next = cur + days_per_step /\ next <= end_date))
  /\ (forall (fast_ : bool) (region : polygon) (fuel : nat),
        (2 < fuel)%nat ->
        exists imgs,
          while_cur_date fuel (export_func fast_) region 10
            (_ymd2ord 2021 1 25) (_ymd2ord 2021 1 1) []
          = (map EvSingleImage imgs, Returns imgs)
          /\ map (fun w => (isoformat (fst w), isoformat (snd w)))
                 (windows_of imgs)
             = [("2021-01-01", "2021-01-11"); ("2021-01-11", "2021-01-21")]).
Proof.
  assert (General : forall (fast_ : bool) (region : polygon)
            (start_date end_date : date) (days_per_step : Z),
      start_date < end_date -> 0 < days_per_step ->
      forall fuel : nat,
        (Z.to_nat ((end_date - start_date) / days_per_step) < fuel)%nat ->
        while_cur_date fuel (export_func fast_) region days_per_step
            end_date start_date [] =
        (map EvSingleImage
           (map (image_of fast_ region)
                (Spec.windows start_date end_date days_per_step)),
         Returns (map (image_of fast_ region)
                (Spec.windows start_date end_date days_per_step)))).
  { intros f r s e d Hse Hd fuel Hfuel.
    destruct (windows_bounds s e d ltac:(lia) Hd) as [H1 H2].
    rewrite (while_cur_date_steps f r d e _ Hd s [] fuel H1 H2 Hfuel).
    reflexivity. }
  split.
  - intros f r s e d Hse Hd fuel Hfuel.
    exists (map (image_of f r) (Spec.windows s e d)).
    split; [apply General; assumption|].
    rewrite windows_of_image_of. split; [reflexivity|].
    intros cur next. unfold Spec.windows. rewrite in_steps.
    destruct (windows_bounds s e d ltac:(lia) Hd) as [H1 H2].
    set (n := Z.to_nat ((e - s) / d)) in *.
    split.
    + intros [i [Hi Heq]]. inversion Heq; subst cur next.
      exists i. repeat split; try lia. nia.
    + intros [i [Hi [-> [-> Hnext]]]].
      exists i. split; [|reflexivity]. split; [lia|]. nia.
  - intros f r fuel Hfuel.
    exists (map (image_of f r) (Spec.windows (_ymd2ord 2021 1 1) (_ymd2ord 2021 1 25) 10)).
    split.
    + apply General; [reflexivity|reflexivity|]. exact Hfuel.
    + rewrite windows_of_image_of. reflexivity.
Qed.


Lemma time_steps_greedy_witness :
  exists imgs,
    while_cur_date 3 (export_func true) (EEPolygon Example.box80) 10
      (_ymd2ord 2021 1 25) (_ymd2ord 2021 1 1) []
    = (map EvSingleImage imgs, Returns imgs)
    /\ windows_of imgs
       = [(_ymd2ord 2021 1 1, _ymd2ord 2021 1 11);
          (_ymd2ord 2021 1 11, _ymd2ord 2021 1 21)].
Proof.
  destruct (proj1 time_steps_greedy true (EEPolygon Example.box80)
              (_ymd2ord 2021 1 1) (_ymd2ord 2021 1 25) 10
              eq_refl eq_refl 3%nat (le_n 3)) as [imgs [Hrun [Hwin _]]].
  exists imgs. split; [exact Hrun|exact Hwin].
Defined.

(** C3 (as stated, refuted): in the description the characters [.] and [=]
    of the identifier are not removed; each is replaced by [-]. *)
Lemma description_is_not_stripped :
  _generate_filename_and_desc Example.box80 Example.start_2020 Example.end_2021
  = (Example.name_2021,
     "min_lat--0-0007_min_lon--0-0007_max_lat-0-0007_max_lon-0-0007_dates-2020-01-01_2021-01-01")
  /\ Spec.description_stripped Example.name_2021
     = "min_lat-00007_min_lon-00007_max_lat00007_max_lon00007_dates2020-01-01_2021-01-01".
Proof. split; reflexivity. Qed.

(** C3 (amended): the identifier is
    [min_lat={v}_min_lon={v}_max_lat={v}_max_lon={v}_dates={start}_{end}]
    with each coordinate rounded to 4 decimal places and the dates printed
    as YYYY-MM-DD; the description is the first 100 characters of the
    identifier with every [.] and every [=] replaced by [-] (so it has the
    length of the identifier, 100 at most, and no [.] or [=]). *)
Theorem identifier_and_description
    (bbox : BoundingBox) (start_date end_date : date) :
  let filename := fst (_generate_filename_and_desc bbox start_date end_date) in
  let description := snd (_generate_filename_and_desc bbox start_date end_date) in
  filename
  = "min_lat=" ++ repr (round4 (min_lat bbox))
    ++ "_min_lon=" ++ repr (round4 (min_lon bbox))
    ++ "_max_lat=" ++ repr (round4 (max_lat bbox))
    ++ "_max_lon=" ++ repr (round4 (max_lon bbox))
    ++ "_dates=" ++ isoformat start_date ++ "_" ++ isoformat end_date
  /\ String.length description = Nat.min 100 (String.length filename)
  /\ (forall i, (i < 100)%nat ->
        String.get i description = option_map Naming.dash (String.get i filename))
  /\ (forall i c, String.get i description = Some c ->
        c <> "."%char /\ c <> "="%char).
Proof.
  intros filename description.
  assert (Hdesc : description
            = PyStr.prefix 100
                (PyStr.replace "=" "-" (PyStr.replace "." "-" filename)))
    by reflexivity.
  assert (Hchar : forall i, (i < 100)%nat ->
            String.get i description
            = option_map Naming.dash (String.get i filename)).
  { intros i Hi. rewrite Hdesc. apply description_chars. exact Hi. }
  assert (Hlen : String.length description = Nat.min 100 (String.length filename)).
  { rewrite Hdesc. apply description_length. }
  split; [reflexivity|]. split; [exact Hlen|]. split; [exact Hchar|].
  intros i c Hget.
  assert (Hi : (i < 100)%nat).
  { apply get_some_lt in Hget. rewrite Hlen in Hget. lia. }
  rewrite (Hchar i Hi) in Hget.
  destruct (String.get i filename) as [c0|]; [|discriminate].
  cbn [option_map] in Hget. inversion Hget. apply dash_not_dot_eq.
Qed.

(** C4 (the code at the failing input): a task that has failed is not
    queued or running, yet [get_ee_task_list] lists its description, and
    the request of that description is skipped as pending. *)
Theorem failed_task_counts_as_pending :
  existsb Spec.queued_or_running [Example.a_task Example.desc_tomorrow "FAILED"]
  = false
  /\ get_ee_task_list
       (Example.remote_with false [Example.a_task Example.desc_tomorrow "FAILED"])
     = ([EvGetTaskList], Returns [Example.desc_tomorrow])
  /\ _export_using_point_and_dates 5 Example.tomorrow
       (built (Example.remote_with false
                 [Example.a_task Example.desc_tomorrow "FAILED"])
              (Example.label_args false true))
       Example.box80 Example.start_2020 Example.tomorrow
     = ([EvConsult PendingCheck], Returns Skipped_Pending).
Proof. repeat split. Qed.




(** A step of zero days never lets the loop end: whatever the fuel, it is
    used up. *)
Lemma zero_step_never_returns (fast_ : bool) (region : polygon)
    (start_date end_date : date) (fuel : nat) (acc : list single_image) :
  start_date <= end_date ->
  outcome (while_cur_date fuel (export_func fast_) region 0 end_date start_date acc)
  = OutOfFuel.
Proof.
  intros Hle. revert acc. induction fuel as [|fuel IH]; intros acc; [reflexivity|].
  cbn [while_cur_date]. unfold add_days. rewrite Z.add_0_r.
  destruct (Z.leb_spec start_date end_date) as [_|H]; [|lia].
  rewrite export_func_call, bind_returns. unfold outcome in *. cbn [snd].
  apply IH.
Qed.

(** C6 (as stated, refuted): a request that ends tomorrow and whose
    description is that of a running task does not fail; it is skipped as
    pending. *)
Lemma future_request_skipped_as_pending :
  Example.today < Example.tomorrow
  /\ outcome (__post_init__
                (Example.remote_with false
                   [Example.a_task Example.desc_tomorrow "RUNNING"])
                (Example.label_args true true))
     = Returns (built (Example.remote_with false
                         [Example.a_task Example.desc_tomorrow "RUNNING"])
                      (Example.label_args true true))
  /\ _export_using_point_and_dates 5 Example.today
       (built (Example.remote_with false
                 [Example.a_task Example.desc_tomorrow "RUNNING"])
              (Example.label_args true true))
       Example.box80 Example.start_2020 Example.tomorrow
     = ([EvConsult StorageCheck; EvConsult PendingCheck], Returns Skipped_Pending).
Proof. repeat split. Qed.

(** C6 (amended): a request whose end date is after today's date and that no
    ledger check skips fails with [ValueError] before any request to the
    services ([_export_for_polygon] raises first thing); a request that a
    ledger check skips returns its skip outcome, whatever its end date, also
    without any request to the services. *)
Theorem future_end_date_fails_unless_skipped
    (remote : Remote) (a : LabelExporterArgs) (self : LabelExporter)
    (fuel : nat) (today : date) (bbox : BoundingBox)
    (start_date end_date : date) :
  outcome (__post_init__ remote a) = Returns self ->
  today < end_date ->
  let future := ValueError (isoformat end_date ++ " is in the future") in
  let r := _export_using_point_and_dates fuel today self bbox start_date end_date in
  (forall file_name_prefix description dest_bucket,
      _export_for_polygon fuel today (base a) (EEPolygon bbox) start_date end_date
        file_name_prefix description dest_bucket = ([], Raises future))
  /\ remote_calls (trace r) = []
  /\ outcome r =
     match Spec.skip_outcome (decision_for self bbox start_date end_date) with
     | Some o => Returns o
     | None => Raises future
     end.
Proof.
  intros Hself Hfuture future r.
  pose proof (post_init_lists_follow_flags _ _ _ Hself) as Hflags.
  split.
  { intros f d b. apply export_for_polygon_future. exact Hfuture. }
  unfold r.
  rewrite (export_request_cases fuel today self bbox start_date end_date Hflags).
  destruct (Spec.skip_outcome (decision_for self bbox start_date end_date)) as [o|].
  - unfold trace, outcome. cbn [fst snd]. split; [apply remote_calls_consults|reflexivity].
  - unfold submission.
    destruct (_generate_filename_and_desc bbox start_date end_date) as [f d].
    rewrite export_for_polygon_future by exact Hfuture.
    rewrite bind_returns. unfold trace, outcome. cbn [fst snd bind].
    rewrite app_nil_r. split; [apply remote_calls_consults|reflexivity].
Qed.

Lemma future_end_date_fails_unless_skipped_witness :
  remote_calls
    (trace (_export_using_point_and_dates 5 Example.today
              (built (Example.remote_with false []) (Example.label_args true true))
              Example.box80 Example.start_2020 Example.tomorrow)) = []
  /\ outcome (_export_using_point_and_dates 5 Example.today
                (built (Example.remote_with false []) (Example.label_args true true))
                Example.box80 Example.start_2020 Example.tomorrow)
     = Raises (ValueError "2021-06-02 is in the future").
Proof.
  exact (proj2 (future_end_date_fails_unless_skipped
                  (Example.remote_with false []) (Example.label_args true true)
                  _ 5 Example.today Example.box80 Example.start_2020
                  Example.tomorrow eq_refl eq_refl)).
Defined.

(** C7 (as stated, refuted): [ee.Initialize] fails, and the run goes on: the
    error is logged, the bucket is listed, the one label is processed
    (skipped, its output exists) and the run returns. *)
Lemma run_goes_on_after_auth_failure :
  initialize_raises (Example.remote_with true []) None = true
  /\ exists msg,
       run 5 Example.today (Example.remote_with true [])
         (Example.label_args true false)
         [{| label_bbox := Example.box80;
             label_start := Example.start_2020;
             label_end := Example.end_2021 |}]
       = ([EvInitialize None;
           EvLogError
             "This code doesn't work unless you have authenticated your earthengine account";
           EvListBlobs "crop-mask-tifs";
           EvConsult StorageCheck;
           EvStdout msg],
          Returns (0, 1)).
Proof. split; [reflexivity|]. eexists. reflexivity. Qed.

(** C7 (amended): an authentication failure is not raised by the
    authentication step and does not by itself abort the run:
    [check_earthengine_auth] catches what [ee.Initialize] raises, logs one
    error and returns.  The run then goes on.  When the process lists the
    bucket for the first time, with the storage check on, the task check off
    and a bucket that is not named ["default"], and the output of every
    label is in the bucket, the run makes no request to Earth Engine after
    the failed one -- the bucket listing is its only other request --, every
    label is answered from the list and the run returns, all labels counted
    as existing. *)
Theorem auth_failure_is_logged_and_run_goes_on
    (remote : Remote) (a : LabelExporterArgs) (fuel : nat) (today : date)
    (labels : list label) :
  let c := if truthy (credentials (base a)) then credentials (base a) else None in
  initialize_raises remote c = true ->
  check_gcp a = true ->
  check_ee a = false ->
  dest_bucket a <> "default" ->
  (forall row, In row labels ->
     PyStr.mem
       ("tifs/"
        ++ fst (_generate_filename_and_desc (label_bbox row) (label_start row)
                  (label_end row))
        ++ ".tif")
       (list_blobs remote (dest_bucket a)) = true) ->
  check_earthengine_auth remote (base a)
  = ([EvInitialize c;
      EvLogError
        "This code doesn't work unless you have authenticated your earthengine account"],
     Returns tt)
  /\ remote_calls (trace (run fuel today remote a labels))
     = [EvInitialize c; EvListBlobs (dest_bucket a)]
  /\ outcome (run fuel today remote a labels)
     = Returns (0, Z.of_nat (List.length labels)).
Proof.
  intros c Hraise Hgcp Hee Hbucket Hall.
  assert (Hauth : check_earthengine_auth remote (base a)
                  = ([EvInitialize c;
                      EvLogError
                        "This code doesn't work unless you have authenticated your earthengine account"],
                     Returns tt)).
  { rewrite check_earthengine_auth_total. cbv zeta. fold c. rewrite Hraise.
    reflexivity. }
  split; [exact Hauth|].
  assert (Hpost : __post_init__ remote a
                  = ([EvInitialize c;
                      EvLogError
                        "This code doesn't work unless you have authenticated your earthengine account";
                      EvListBlobs (dest_bucket a)],
                     Returns (built remote a))).
  { unfold __post_init__, built, get_cloud_tif_list.
    rewrite Hauth, Hgcp, Hee. reflexivity. }
  assert (Hself : forall row, In row labels ->
                    Labels.output_exists (built remote a) row = true).
  { intros row Hin. unfold Labels.output_exists, built.
    cbn [args cloud_tif_list]. rewrite Hgcp. cbn [andb]. apply Hall. exact Hin. }
  destruct (export_all_exist fuel today (built remote a) labels Hself)
    as [Hquiet Hout].
  unfold run. rewrite Hpost, bind_returns.
  change (trace (?x, ?y)) with x. change (outcome (?x, ?y)) with y.
  split; [|exact Hout].
  unfold remote_calls in *. rewrite filter_app.
  change (fst ?m) with (trace m). rewrite Hquiet. reflexivity.
Qed.

Lemma auth_failure_is_logged_and_run_goes_on_witness :
  remote_calls
    (trace (run 5 Example.today
              (Example.remote_with true [Example.a_task "job" "RUNNING"])
              (Example.label_args true false)
              [{| label_bbox := Example.box80;
                  label_start := Example.start_2020;
                  label_end := Example.end_2021 |};
               {| label_bbox := Example.box80;
                  label_start := Example.start_2020;
                  label_end := Example.end_2021 |}]))
  = [EvInitialize None; EvListBlobs "crop-mask-tifs"].
Proof.
  refine (proj1 (proj2 (auth_failure_is_logged_and_run_goes_on
                          (Example.remote_with true
                             [Example.a_task "job" "RUNNING"])
                          (Example.label_args true false) 5 Example.today
                          [{| label_bbox := Example.box80;
                              label_start := Example.start_2020;
                              label_end := Example.end_2021 |};
                           {| label_bbox := Example.box80;
                              label_start := Example.start_2020;
                              label_end := Example.end_2021 |}]
                          eq_refl eq_refl eq_refl _ _))).
  - discriminate.
  - intros row [<-|[<-|[]]]; vm_compute; reflexivity.
Defined.

(** C8 (as stated, refuted): with 3000 running tasks a request whose output
    exists is answered Skipped-Exists, and the storage list is the one list
    read. *)
Lemma at_capacity_existing_output_is_skipped_exists :
  List.length (ee_task_list (built (Example.remote_with false Example.running_3000)
                                   (Example.label_args true true))) = 3000%nat
  /\ _export_using_point_and_dates 5 Example.today
       (built (Example.remote_with false Example.running_3000)
              (Example.label_args true true))
       Example.box80 Example.start_2020 Example.end_2021
     = ([EvConsult StorageCheck], Returns Skipped_Exists).
Proof. split; vm_compute; reflexivity. Qed.

(** C8 (amended): when the list of tasks has 3000 entries or more, no
    request is submitted: a request is answered Skipped-Exists when its
    output exists, else Skipped-Pending when its description is pending,
    else Skipped-QuotaCapped; the storage list is read first whenever
    [check_gcp] is set, and the capacity is read only after the two other
    checks have failed. *)
Theorem at_capacity_nothing_is_submitted
    (remote : Remote) (a : LabelExporterArgs) (self : LabelExporter)
    (fuel : nat) (today : date) (bbox : BoundingBox)
    (start_date end_date : date) :
  outcome (__post_init__ remote a) = Returns self ->
  3000 <= Z.of_nat (List.length (ee_task_list self)) ->
  let name := _generate_filename_and_desc bbox start_date end_date in
  let snapshot := Spec.snapshot_of self in
  let r := _export_using_point_and_dates fuel today self bbox start_date end_date in
  let storage := if check_gcp a then [StorageCheck] else [] in
  (if Spec.exists_ snapshot (Spec.output_path (fst name))
   then r = (map EvConsult storage, Returns Skipped_Exists)
   else if Spec.is_pending snapshot (snd name)
   then r = (map EvConsult (storage ++ [PendingCheck]), Returns Skipped_Pending)
   else r = (map EvConsult (storage ++ [PendingCheck; CapacityCheck]),
             Returns Skipped_QuotaCapped))
  /\ remote_calls (trace r) = [].
Proof.
  intros Hself Hcap name snapshot r storage.
  pose proof (post_init_lists_follow_flags _ _ _ Hself) as Hflags.
  assert (Ha : args self = a).
  { rewrite post_init_returns in Hself. inversion Hself. reflexivity. }
  pose proof (export_request_cases fuel today self bbox start_date end_date Hflags)
    as Hcases.
  pose proof (decision_skip_needs_ee self bbox start_date end_date Hflags) as He.
  fold r in Hcases. unfold decision_for in Hcases, He.
  fold name snapshot in Hcases, He.
  unfold Spec.evaluate in Hcases, He.
  assert (Hat : Spec.at_capacity snapshot Spec.default_cap = true).
  { unfold Spec.at_capacity, Spec.default_cap, snapshot, Spec.snapshot_of.
    cbn [Spec.pending_jobs]. apply Z.leb_le. exact Hcap. }
  rewrite Hat in Hcases, He. subst a. unfold storage, checks_before in *.
  destruct (Spec.exists_ snapshot (Spec.output_path (fst name))).
  - cbn [Spec.skip_outcome] in Hcases. rewrite Hcases.
    split; [reflexivity|apply remote_calls_consults].
  - destruct (Spec.is_pending snapshot (snd name)).
    + cbn [Spec.skip_outcome] in Hcases. rewrite Hcases.
      rewrite (He (or_introl eq_refl)).
      split; [reflexivity|apply remote_calls_consults].
    + cbn [Spec.skip_outcome] in Hcases. rewrite Hcases.
      rewrite (He (or_intror eq_refl)).
      split; [reflexivity|apply remote_calls_consults].
Qed.

Lemma at_capacity_nothing_is_submitted_witness :
  _export_using_point_and_dates 5 Example.today
    (built (Example.remote_with false Example.running_3000)
           (Example.label_args false true))
    Example.box80 Example.start_2020 Example.end_2021
  = ([EvConsult PendingCheck; EvConsult CapacityCheck], Returns Skipped_QuotaCapped).
Proof.
  pose proof (proj1 (at_capacity_nothing_is_submitted
                (Example.remote_with false Example.running_3000)
                (Example.label_args false true) _ 5 Example.today
                Example.box80 Example.start_2020 Example.end_2021
                eq_refl ltac:(vm_compute; discriminate))) as H.
  vm_compute in H. vm_compute. exact H.
Defined.

(** C9 (as stated, refuted): [1.00004] and [1.00006] agree in every digit
    up to the fourth decimal place, and the identifiers of two boxes that
    differ in nothing else are different: the code rounds, it does not
    cut. *)
Lemma identifiers_differ_past_fourth_decimal :
  Spec.boxes_agree4 Example.box_a Example.box_b
  /\ fst (_generate_filename_and_desc Example.box_a
             Example.start_2020 Example.end_2021)
     = "min_lat=1.0_min_lon=-0.0007_max_lat=0.0007_max_lon=0.0007_dates=2020-01-01_2021-01-01"
  /\ fst (_generate_filename_and_desc Example.box_b
             Example.start_2020 Example.end_2021)
     = "min_lat=1.0001_min_lon=-0.0007_max_lat=0.0007_max_lon=0.0007_dates=2020-01-01_2021-01-01".
Proof.
  split; [|split; reflexivity].
  repeat split; eexists; eexists; split; reflexivity.
Qed.

(** C9 (amended): two bounding boxes whose coordinates have, pair by pair,
    the same sign and lie strictly within 0.00005 of the same multiple of
    0.0001 (so that they round to the same 4-decimal value) give, for the
    same date range, the same identifier and the same description. *)
Theorem identifier_of_boxes_near_same_decimals
    (a b : BoundingBox) (start_date end_date : date) :
  Naming.boxes_near4 a b ->
  _generate_filename_and_desc a start_date end_date
  = _generate_filename_and_desc b start_date end_date.
Proof.
  intros [H1 [H2 [H3 H4]]]. unfold _generate_filename_and_desc.
  rewrite (round4_same_near _ _ H1), (round4_same_near _ _ H2),
    (round4_same_near _ _ H3), (round4_same_near _ _ H4).
  reflexivity.
Qed.

Lemma identifier_of_boxes_near_same_decimals_witness :
  _generate_filename_and_desc Example.box_a Example.start_2020 Example.end_2021
  = _generate_filename_and_desc Example.box_one Example.start_2020 Example.end_2021.
Proof.
  apply identifier_of_boxes_near_same_decimals.
  repeat split.
  - exists false, 10000. repeat split; discriminate.
  - exists true, 7. repeat split; discriminate.
  - exists false, 7. repeat split; discriminate.
  - exists false, 7. repeat split; discriminate.
Defined.

(** C10: when every mosaic has the bands of [BANDS], combining the mosaics
    gives one image whose number of bands is the number of mosaics times
    the number of [BANDS] and whose bands hold, in order, the band set of
    the first mosaic (in the order of [BANDS]), then that of the second, and
    so on; the image is there as soon as there is one mosaic. *)
Theorem combined_bands_in_window_order
    (D : Type) (BANDS : list string) (rename : list string -> string -> string)
    (window_mosaics : list (CloudFree.image D)) :
  (forall img, In img window_mosaics ->
     forall name, In name BANDS -> In name (CloudFree.band_names D img)) ->
  exists combined,
    CloudFree.combine D BANDS rename window_mosaics = CloudFree.Ok combined
    /\ List.length (CloudFree.bands_of D combined)
       = (List.length window_mosaics * List.length BANDS)%nat
    /\ CloudFree.band_data D (CloudFree.bands_of D combined)
       = List.concat (map (CloudFree.selected D BANDS) window_mosaics)
    /\ (forall img, In img window_mosaics ->
          exists bs, CloudFree.select D BANDS img = CloudFree.Ok bs
                     /\ CloudFree.band_names D bs = BANDS)
    /\ match window_mosaics with
       | [] => combined = None
       | _ :: _ => exists img, combined = Some img
       end.
Proof.
  intros Hall.
  destruct (iterate_combine_bands D BANDS rename window_mosaics Hall None)
    as [combined [Hc Hd]].
  exists combined. cbn [CloudFree.bands_of CloudFree.band_data map app] in Hd.
  split; [exact Hc|]. split.
  { rewrite <- (concat_selected_length D BANDS window_mosaics Hall), <- Hd.
    unfold CloudFree.band_data. rewrite length_map. reflexivity. }
  split; [exact Hd|]. split.
  { intros img Hin.
    destruct (select_total D BANDS img (Hall img Hin)) as [bs Hbs].
    exists bs. split; [exact Hbs|]. exact (select_names D BANDS img bs Hbs). }
  destruct window_mosaics as [|m ms].
  - cbn in Hc. inversion Hc. reflexivity.
  - unfold CloudFree.combine in Hc. cbn [CloudFree.iterate] in Hc.
    destruct (CloudFree.combine_bands D BANDS rename m None) as [state|];
      [|discriminate].
    apply (iterate_from_some D BANDS rename ms state combined Hc).
Qed.

Lemma combined_bands_in_window_order_witness :
  exists combined,
    CloudFree.combine Z Example.two_bands Example.suffix_1
      [Example.mosaic 0; Example.mosaic 1; Example.mosaic 2]
    = CloudFree.Ok combined
    /\ List.length (CloudFree.bands_of Z combined) = 6%nat
    /\ CloudFree.band_data Z (CloudFree.bands_of Z combined)
       = [2; 3; 12; 13; 22; 23].
Proof.
  destruct (combined_bands_in_window_order Z Example.two_bands Example.suffix_1
              [Example.mosaic 0; Example.mosaic 1; Example.mosaic 2])
    as [combined [Hc [Hn [Hd _]]]].
  - intros img Hin name Hname.
    destruct Hin as [<-|[<-|[<-|[]]]]; destruct Hname as [<-|[<-|[]]];
      cbn; tauto.
  - exists combined. split; [exact Hc|]. split; [exact Hn|exact Hd].
Defined.

(* ================================================================== *)
(** ** Further properties: [memoize] *)

Section MemoizeLemmas.

Import Memoize.

Variables E V : Type.

Lemma lookup_app (x : string) (m m' : memo V) :
  lookup V x (m ++ m')%list =
  match lookup V x m with
  | Some v => Some v
  | None => lookup V x m'
  end.
Proof.
  unfold lookup. induction m as [|[k v] m IH]; [cbn; destruct (option_map _ _); reflexivity|].
  cbn [app find fst]. destruct (String.eqb k x); [reflexivity|exact IH].
Qed.

Lemma lookup_stored (x : string) (v : V) (m : memo V) :
  lookup V x m = None -> lookup V x (m ++ [(x, v)])%list = Some v.
Proof.
  intros H. rewrite lookup_app, H. unfold lookup. cbn.
  rewrite String.eqb_refl. reflexivity.
Qed.

(** What a returning call of [helper] leaves. *)
Lemma helper_returns (f : option string -> M E V) (m m1 : memo V) (x : string)
    (t : list E) (v : V) :
  helper E V f m x = (t, Returns (v, m1)) ->
  lookup V x m1 = Some v /\
  (forall y w, lookup V y m = Some w -> lookup V y m1 = Some w) /\
  (lookup V x m <> None -> t = [] /\ m1 = m).
Proof.
  unfold helper. destruct (lookup V x m) as [v0|] eqn:L.
  - intros H. inversion H; subst. repeat split; auto.
  - intros H.
    destruct (if String.eqb x "default" then f None else f (Some x))
      as [t0 [v0| |]]; cbn in H; try discriminate.
    inversion H; subst. split; [apply lookup_stored; exact L|].
    split; [|intros C; exfalso; apply C; reflexivity].
    intros y w Hy. rewrite lookup_app, Hy. reflexivity.
Qed.

End MemoizeLemmas.

(** X1: once a memoized call has returned a value for an argument, a later
    call with that argument returns the same value without calling the
    function, whatever the function would now return, and leaves the
    dictionary as it is. *)
Theorem memoize_serves_the_first_answer
    (E V : Type) (f f' : option string -> M E V) (m m1 : Memoize.memo V)
    (x : string) (t : list E) (v : V) :
  Memoize.helper E V f m x = (t, Returns (v, m1)) ->
  Memoize.helper E V f' m1 x = ([], Returns (v, m1)).
Proof.
  intros H. destruct (helper_returns E V f m m1 x t v H) as [Hx _].
  unfold Memoize.helper. rewrite Hx. reflexivity.
Qed.

Lemma memoize_serves_the_first_answer_witness :
  Memoize.helper event (list string)
    (fun _ => get_ee_task_list (Example.remote_with false Example.running_3000))
    [("default", ["job"])] "default"
  = ([], Returns (["job"], [("default", ["job"])])).
Proof.
  apply (memoize_serves_the_first_answer event (list string)
           (fun _ => get_ee_task_list
                       (Example.remote_with false [Example.a_task "job" "RUNNING"]))
           _ [] [("default", ["job"])] "default" [EvGetTaskList]).
  reflexivity.
Defined.

(** X2: the dictionary of a memoized function only grows: a value stored
    for an argument is never replaced or dropped by a later call, be it for
    that argument or for another one. *)
Theorem memoize_never_refreshes
    (E V : Type) (f : option string -> M E V) (m m1 : Memoize.memo V)
    (x : string) (t : list E) (v : V) :
  Memoize.helper E V f m x = (t, Returns (v, m1)) ->
  forall y w, Memoize.lookup V y m = Some w -> Memoize.lookup V y m1 = Some w.
Proof.
  intros H. destruct (helper_returns E V f m m1 x t v H) as [_ [Hkeep _]].
  exact Hkeep.
Qed.

Lemma memoize_never_refreshes_witness :
  Memoize.lookup (list string) "default"
    [("default", ["job"]); ("description", ["job"; "job2"])]
  = Some ["job"].
Proof.
  apply (memoize_never_refreshes event (list string)
           (fun _ => get_ee_task_list
                       (Example.remote_with false
                          [Example.a_task "job" "RUNNING";
                           Example.a_task "job2" "READY"]))
           [("default", ["job"])] _ "description"
           [EvGetTaskList] ["job"; "job2"] eq_refl).
  reflexivity.
Defined.

(* ================================================================== *)
(** ** Further properties: [cancel_all_tasks] *)

Lemma cancelled_app (t1 t2 : list Cancel.event) :
  Cancel.cancelled (t1 ++ t2) = (Cancel.cancelled t1 ++ Cancel.cancelled t2)%list.
Proof. apply flat_map_app. Qed.

Lemma cancel_tasks_cons (t : task) (tasks : list task) :
  Cancel.cancel_tasks (t :: tasks) =
  (([Cancel.EvStatus (task_id t); Cancel.EvStatus (task_id t)]
    ++ (if Cancel.running_or_ready t
        then [Cancel.EvCancel (task_id t);
              Cancel.EvLogInfo ("Task " ++ task_id t ++ " cancelled")]
        else [Cancel.EvLogInfo
                ("Task " ++ task_id t ++ " state is " ++ task_state t)])
    ++ trace (Cancel.cancel_tasks tasks))%list,
   outcome (Cancel.cancel_tasks tasks)).
Proof.
  cbn [Cancel.cancel_tasks].
  destruct (Cancel.cancel_tasks tasks) as [tr o].
  destruct (Cancel.running_or_ready t); reflexivity.
Qed.

Lemma cancel_tasks_returns (tasks : list task) :
  outcome (Cancel.cancel_tasks tasks) = Returns tt
  /\ Cancel.cancelled (trace (Cancel.cancel_tasks tasks))
     = map task_id (filter Cancel.running_or_ready tasks).
Proof.
  induction tasks as [|t tasks [IHo IHc]]; [split; reflexivity|].
  rewrite cancel_tasks_cons. split; [exact IHo|].
  change (trace (?a, ?b)) with a.
  rewrite !cancelled_app, IHc. cbn [filter].
  destruct (Cancel.running_or_ready t); reflexivity.
Qed.

(** X3: [cancel_all_tasks] cancels exactly the tasks whose state is RUNNING
    or READY, in the order of the task list, and no other task; when
    [ee.Initialize] raises, the exception is not caught (unlike in
    [check_earthengine_auth]): it is raised before the task list is asked
    for and nothing is cancelled. *)
Theorem cancel_all_tasks_cancels_running_and_ready (remote : Remote) :
  if initialize_raises remote None
  then Cancel.cancel_all_tasks remote
       = ([Cancel.EvInitialize], Raises (EEException "ee.Initialize"))
  else outcome (Cancel.cancel_all_tasks remote) = Returns tt
       /\ Cancel.cancelled (trace (Cancel.cancel_all_tasks remote))
          = map task_id (filter Cancel.running_or_ready (getTaskList remote)).
Proof.
  unfold Cancel.cancel_all_tasks.
  destruct (initialize_raises remote None); [reflexivity|].
  destruct (cancel_tasks_returns (getTaskList remote)) as [Ho Hc].
  destruct (Cancel.cancel_tasks (getTaskList remote)) as [tr o].
  unfold outcome, trace in *. cbn [fst snd] in Ho, Hc. subst o.
  cbn [bind emit ret fst snd app]. split; [reflexivity|exact Hc].
Qed.

(* ================================================================== *)
(** ** Further properties: [RegionExporter.export] *)

Section TextLemmas.

Lemma append_length (s t : string) :
  String.length (s ++ t) = (String.length s + String.length t)%nat.
Proof. induction s as [|c s IH]; cbn; [reflexivity|]. rewrite IH. reflexivity. Qed.

Lemma append_same_length_inj (s1 s2 t1 t2 : string) :
  String.length s1 = String.length s2 ->
  s1 ++ t1 = s2 ++ t2 -> s1 = s2 /\ t1 = t2.
Proof.
  revert s2. induction s1 as [|c s1 IH]; intros [|c' s2] Hlen H;
    cbn in Hlen; try discriminate.
  - split; [reflexivity|exact H].
  - cbn in H. inversion H; subst. inversion Hlen as [Hl].
    destruct (IH s2 Hl H2) as [-> ->]. split; reflexivity.
Qed.

Lemma append_right_cancel (s1 s2 t : string) :
  s1 ++ t = s2 ++ t -> s1 = s2.
Proof.
  intros H.
  assert (Hlen : String.length s1 = String.length s2).
  { apply (f_equal String.length) in H. rewrite !append_length in H. lia. }
  apply (append_same_length_inj s1 s2 t t Hlen H).
Qed.

Lemma of_N_inj (n n' : N) : PyStr.of_N n = PyStr.of_N n' -> n = n'.
Proof.
  unfold PyStr.of_N. intros H.
  assert (Hnil : forall k, N.to_uint k <> Decimal.Nil).
  { intros [|p]; [discriminate|]. apply DecimalPos.Unsigned.to_uint_nonnil. }
  apply (f_equal NilZero.uint_of_string) in H.
  rewrite !NilZero.usu in H by apply Hnil.
  inversion H as [Hu]. apply DecimalN.Unsigned.to_uint_inj. exact Hu.
Qed.

End TextLemmas.

Section RegionLemmas.

Variable to_polygons : BoundingBox -> Z -> list polygon.

Lemma exports_app (t1 t2 : list event) :
  Region.exports (t1 ++ t2) = (Region.exports t1 ++ Region.exports t2)%list.
Proof. apply flat_map_app. Qed.

Lemma single_images_app (t1 t2 : list event) :
  Region.single_images (t1 ++ t2)
  = (Region.single_images t1 ++ Region.single_images t2)%list.
Proof. apply flat_map_app. Qed.

Lemma exports_single_images (imgs : list single_image) :
  Region.exports (map EvSingleImage imgs) = [].
Proof. induction imgs; [reflexivity|assumption]. Qed.

Lemma auth_trace_quiet (remote : Remote) (self : EarthEngineExporter) :
  Region.exports (trace (check_earthengine_auth remote self)) = []
  /\ Region.single_images (trace (check_earthengine_auth remote self)) = [].
Proof.
  rewrite check_earthengine_auth_total. unfold trace. cbn [fst].
  destruct (initialize_raises remote _); split; reflexivity.
Qed.

(** The loop of the time steps returns or runs out of fuel; it never
    raises, and it asks for step images only. *)
Lemma while_cur_date_shape (fast_ : bool) (region : polygon) (increment : Z)
    (end_date : date) (fuel : nat) :
  forall (cur_date : date) (acc : list single_image),
  exists imgs,
    trace (while_cur_date fuel (export_func fast_) region increment
             end_date cur_date acc) = map EvSingleImage imgs
    /\ (outcome (while_cur_date fuel (export_func fast_) region increment
                   end_date cur_date acc) = OutOfFuel
        \/ outcome (while_cur_date fuel (export_func fast_) region increment
                      end_date cur_date acc) = Returns (acc ++ imgs)%list).
Proof.
  induction fuel as [|fuel IH]; intros cur acc.
  - exists []. split; [reflexivity|left; reflexivity].
  - cbn [while_cur_date].
    destruct (add_days cur increment <=? end_date).
    + rewrite export_func_call, bind_returns.
      destruct (IH (add_days cur increment)
                   (acc ++ [image_of fast_ region (cur, add_days cur increment)])%list)
        as [imgs [Ht Ho]].
      exists (image_of fast_ region (cur, add_days cur increment) :: imgs).
      unfold trace, outcome in *. cbn [fst snd]. rewrite Ht. split; [reflexivity|].
      destruct Ho as [Ho|Ho]; [left; exact Ho|right].
      rewrite Ho, <- app_assoc. reflexivity.
    + exists []. split; [reflexivity|right]. cbn. rewrite app_nil_r. reflexivity.
Qed.

(** What one call of [_export_for_polygon] does: it raises before anything
    else, or runs out of fuel, or returns after exactly one export, whose
    description and file prefix are the ones given. *)
Lemma export_for_polygon_shape (fuel : nat) (today : date)
    (self : EarthEngineExporter) (p : polygon) (start_date end_date : date)
    (file_name_prefix description : string) (dest_bucket : option string) :
  let r := _export_for_polygon fuel today self p start_date end_date
             file_name_prefix description dest_bucket in
  (today < end_date /\ exists e, r = ([], Raises e))
  \/ (end_date <= today /\ outcome r = OutOfFuel /\ Region.exports (trace r) = [])
  \/ (end_date <= today /\ outcome r = Returns tt
      /\ exists call, Region.exports (trace r) = [call]
                      /\ ex_description call = description
                      /\ ex_file_name_prefix call = file_name_prefix
                      /\ ex_dest_bucket call = dest_bucket
                      /\ ex_region call = p).
Proof.
  intros r. unfold r, _export_for_polygon.
  destruct (Z.ltb_spec today end_date) as [H|H].
  - left. split; [exact H|]. eexists. reflexivity.
  - right.
    destruct (while_cur_date_shape (fast self) p (days_per_timestep self)
                end_date fuel start_date []) as [imgs [Ht Ho]].
    destruct (while_cur_date fuel (export_func (fast self)) p
                (days_per_timestep self) end_date start_date []) as [t o].
    unfold trace, outcome in *. cbn [fst snd] in Ht, Ho. subst t.
    destruct Ho as [->| ->].
    + left. split; [exact H|]. cbn [bind fst snd].
      split; [reflexivity|apply exports_single_images].
    + right. split; [exact H|]. cbn [bind cloudfree_export emit fst snd].
      split; [reflexivity|].
      eexists. rewrite exports_app, exports_single_images. cbn.
      split; [reflexivity|]. repeat split.
Qed.

(** With an end date in the future the loop over the polygons stops at
    its first polygon, before anything is asked. *)
Lemma export_polygons_future (fuel : nat) (today : date)
    (self : EarthEngineExporter) (dest_path : string)
    (dest_bucket : option string) (start_date end_date : date)
    (pairs : list (string * polygon)) :
  today < end_date ->
  Region.export_polygons fuel today self dest_path dest_bucket
    start_date end_date pairs
  = match pairs with
    | [] => ([], Returns tt)
    | _ :: _ =>
        ([], Raises (ValueError (isoformat end_date ++ " is in the future")))
    end.
Proof.
  intros H. destruct pairs as [|[identifier region] pairs]; [reflexivity|].
  cbn [Region.export_polygons].
  rewrite export_for_polygon_future by exact H. reflexivity.
Qed.

(** With an end date that is not in the future the loop never raises, and
    when it returns every polygon has been exported once, in order. *)
Lemma export_polygons_past (fuel : nat) (today : date)
    (self : EarthEngineExporter) (dest_path : string)
    (dest_bucket : option string) (start_date end_date : date)
    (pairs : list (string * polygon)) :
  end_date <= today ->
  let r := Region.export_polygons fuel today self dest_path dest_bucket
             start_date end_date pairs in
  (forall e, outcome r <> Raises e)
  /\ (outcome r = Returns tt ->
      map ex_description (Region.exports (trace r)) = map fst pairs
      /\ map ex_region (Region.exports (trace r)) = map snd pairs
      /\ map ex_file_name_prefix (Region.exports (trace r))
         = map (fun pr => dest_path ++ "/batch_" ++ fst pr ++ "/" ++ fst pr) pairs
      /\ map ex_dest_bucket (Region.exports (trace r))
         = map (fun _ => dest_bucket) pairs).
Proof.
  intros Hpast.
  induction pairs as [|[identifier region] pairs IH]; intros r.
  - split; [intros e; discriminate|]. intros _. repeat split.
  - unfold r. cbn [Region.export_polygons].
    pose proof (export_for_polygon_shape fuel today self region start_date end_date
                  (dest_path ++ "/batch_" ++ identifier ++ "/" ++ identifier)
                  identifier dest_bucket) as Hone.
    cbv zeta in Hone, IH.
    destruct (_export_for_polygon fuel today self region start_date end_date
                (dest_path ++ "/batch_" ++ identifier ++ "/" ++ identifier)
                identifier dest_bucket) as [t1 o1].
    destruct (Region.export_polygons fuel today self dest_path dest_bucket
                start_date end_date pairs) as [t2 o2].
    unfold trace, outcome in *. cbn [fst snd] in *.
    destruct Hone as [[Hfut _]|[[_ [Ho He]]|[_ [Ho [call [He Hcall]]]]]].
    + lia.
    + subst o1. cbn. split; [intros e; discriminate|discriminate].
    + subst o1. cbn [bind fst snd]. destruct IH as [IHr IHok]. split; [exact IHr|].
      intros Hret. destruct (IHok Hret) as [H1 [H2 [H3 H4]]].
      destruct Hcall as [Hd [Hp [Hb Hr]]].
      rewrite exports_app, He. cbn [app map fst snd].
      rewrite H1, H2, H3, H4, Hd, Hp, Hb, Hr. repeat split.
Qed.

End RegionLemmas.

Lemma map_fst_combine {A B} (l : list A) (l' : list B) :
  List.length l = List.length l' -> map fst (List.combine l l') = l.
Proof.
  revert l'. induction l as [|a l IH]; intros [|b l'] H; cbn in *;
    try discriminate; [reflexivity|]. rewrite IH by lia. reflexivity.
Qed.

Lemma map_snd_combine {A B} (l : list A) (l' : list B) :
  List.length l = List.length l' -> map snd (List.combine l l') = l'.
Proof.
  revert l'. induction l as [|a l IH]; intros [|b l'] H; cbn in *;
    try discriminate; [reflexivity|]. rewrite IH by lia. reflexivity.
Qed.

Lemma regions_and_ids_lengths (to_polygons : BoundingBox -> Z -> list polygon)
    (bbox : BoundingBox) (metres : option Z) (general : string) :
  List.length (snd (Region.regions_and_ids to_polygons bbox metres general))
  = List.length (fst (Region.regions_and_ids to_polygons bbox metres general)).
Proof.
  unfold Region.regions_and_ids. destruct metres; cbn; [|reflexivity].
  rewrite length_map, length_seq. reflexivity.
Qed.

Lemma regions_and_ids_nodup (to_polygons : BoundingBox -> Z -> list polygon)
    (bbox : BoundingBox) (metres : option Z) (general : string) :
  NoDup (snd (Region.regions_and_ids to_polygons bbox metres general)).
Proof.
  unfold Region.regions_and_ids. destruct metres; cbn [snd].
  - apply Injective_map_NoDup; [|apply seq_NoDup].
    intros i j H. apply append_right_cancel in H. apply of_N_inj in H. lia.
  - constructor; [intros []|constructor].
Qed.

(** The result of [RegionExporter.export] once the dates are known. *)
Lemma region_export_with_dates (to_polygons : BoundingBox -> Z -> list polygon)
    (fuel : nat) (today : date) (remote : Remote) (self : EarthEngineExporter)
    (bbox : BoundingBox) (dest_path : string) (dest_bucket : option string)
    (end_date start_date : option date) (metres : option Z) (s e : date) :
  Region.default_dates self start_date end_date = (Some s, Some e) ->
  let ri := Region.regions_and_ids to_polygons bbox metres
              (Region.general_identifier dest_path s e) in
  let loop := Region.export_polygons fuel today self dest_path dest_bucket s e
                (List.combine (snd ri) (fst ri)) in
  Region.export to_polygons fuel today remote self bbox dest_path dest_bucket
    end_date start_date metres
  = ((trace (check_earthengine_auth remote self) ++ trace loop)%list,
     match outcome loop with
     | Returns _ => Returns (snd ri)
     | Raises x => Raises x
     | OutOfFuel => OutOfFuel
     end).
Proof.
  intros Hd ri loop. unfold Region.export. rewrite Hd.
  rewrite check_earthengine_auth_total, bind_returns.
  fold ri. destruct ri as [regions ids]. cbn [fst snd] in *.
  unfold loop. cbn [trace fst].
  destruct (Region.export_polygons fuel today self dest_path dest_bucket s e
              (List.combine ids regions)) as [t [[]| |]];
    cbn; rewrite ?app_nil_r; reflexivity.
Qed.

Lemma region_export_without_dates
    (to_polygons : BoundingBox -> Z -> list polygon)
    (fuel : nat) (today : date) (remote : Remote) (self : EarthEngineExporter)
    (bbox : BoundingBox) (dest_path : string) (dest_bucket : option string)
    (end_date start_date : option date) (metres : option Z) :
  (forall s e, Region.default_dates self start_date end_date <> (Some s, Some e)) ->
  trace (Region.export to_polygons fuel today remote self bbox dest_path
           dest_bucket end_date start_date metres)
  = trace (check_earthengine_auth remote self)
  /\ exists x, outcome (Region.export to_polygons fuel today remote self bbox
                         dest_path dest_bucket end_date start_date metres)
               = Raises x.
Proof.
  intros Hd. unfold Region.export.
  rewrite check_earthengine_auth_total, bind_returns.
  destruct (Region.default_dates self start_date end_date) as [[s|] [e|]];
    try (exfalso; apply (Hd s e); reflexivity);
    cbn; rewrite app_nil_r; (split; [reflexivity|eexists; reflexivity]).
Qed.

(** X4: when [RegionExporter.export] cannot determine its two dates, or the
    end date it has is after today, it asks the services for nothing beyond
    the [ee.Initialize] of [check_earthengine_auth]: no step image is
    built and no export submitted, for any polygon.  It raises [ValueError],
    unless the dates are known and there is no polygon to export, in which
    case it returns no identifier. *)
Theorem region_export_raises_before_any_export
    (to_polygons : BoundingBox -> Z -> list polygon)
    (fuel : nat) (today : date) (remote : Remote) (self : EarthEngineExporter)
    (bbox : BoundingBox) (dest_path : string) (dest_bucket : option string)
    (end_date start_date : option date) (metres : option Z) :
  (forall s e,
     Region.default_dates self start_date end_date = (Some s, Some e) ->
     today < e) ->
  let r := Region.export to_polygons fuel today remote self bbox dest_path
             dest_bucket end_date start_date metres in
  trace r = trace (check_earthengine_auth remote self)
  /\ ((exists msg, outcome r = Raises (ValueError msg))
      \/ (outcome r = Returns []
          /\ exists m, metres = Some m /\ to_polygons bbox m = [])).
Proof.
  intros Hfut r. unfold r. clear r.
  destruct (Region.default_dates self start_date end_date) as [ds de] eqn:Hd.
  destruct ds as [s|]; [destruct de as [e|]|].
  - rewrite (region_export_with_dates to_polygons fuel today remote self bbox
               dest_path dest_bucket end_date start_date metres s e Hd).
    cbv zeta. change (trace (?a, ?b)) with a. change (outcome (?a, ?b)) with b.
    rewrite export_polygons_future by (apply (Hfut s e); reflexivity).
    unfold Region.regions_and_ids. destruct metres as [m|]; cbn [fst snd].
    + destruct (to_polygons bbox m) as [|p regions] eqn:Hp.
      * cbn. rewrite app_nil_r. split; [reflexivity|right].
        split; [reflexivity|]. exists m. split; [reflexivity|exact Hp].
      * cbn. rewrite app_nil_r. split; [reflexivity|left].
        eexists. reflexivity.
    + cbn. rewrite app_nil_r. split; [reflexivity|left]. eexists. reflexivity.
  - unfold Region.export.
    rewrite check_earthengine_auth_total, bind_returns, Hd.
    cbn. rewrite app_nil_r. split; [reflexivity|left]. eexists. reflexivity.
  - unfold Region.export.
    rewrite check_earthengine_auth_total, bind_returns, Hd.
    destruct de; cbn; rewrite app_nil_r;
      (split; [reflexivity|left]; eexists; reflexivity).
Qed.

Lemma region_export_raises_before_any_export_witness :
  trace (Region.export (fun b _ => [EEPolygon b; EEPolygon b]) 20 Example.today
           (Example.remote_with false []) Example.exporter_defaults
           Example.box80 "gs/Togo" None (Some Example.tomorrow) None (Some 10000))
  = [EvInitialize None].
Proof.
  refine (proj1 (region_export_raises_before_any_export
                   (fun b _ => [EEPolygon b; EEPolygon b]) 20 Example.today
                   (Example.remote_with false []) Example.exporter_defaults
                   Example.box80 "gs/Togo" None (Some Example.tomorrow) None
                   (Some 10000) _)).
  intros s e H. vm_compute in H. inversion H. vm_compute. reflexivity.
Defined.

(** X5: when [RegionExporter.export] returns, the identifiers it returns
    are pairwise distinct, one per polygon, and they are, in order, the
    descriptions of the exports submitted, each polygon being exported once
    under the prefix [dest_path/batch_<id>/<id>]. *)
Theorem region_export_identifiers
    (to_polygons : BoundingBox -> Z -> list polygon)
    (fuel : nat) (today : date) (remote : Remote) (self : EarthEngineExporter)
    (bbox : BoundingBox) (dest_path : string) (dest_bucket : option string)
    (end_date start_date : option date) (metres : option Z) (ids : list string) :
  outcome (Region.export to_polygons fuel today remote self bbox dest_path
             dest_bucket end_date start_date metres) = Returns ids ->
  let calls :=
    Region.exports
      (trace (Region.export to_polygons fuel today remote self bbox dest_path
                dest_bucket end_date start_date metres)) in
  NoDup ids
  /\ map ex_description calls = ids
  /\ map ex_region calls
     = match metres with
       | Some m => to_polygons bbox m
       | None => [EEPolygon bbox]
       end
  /\ map ex_file_name_prefix calls
     = map (fun id => dest_path ++ "/batch_" ++ id ++ "/" ++ id) ids.
Proof.
  intros Hret calls. unfold calls. clear calls.
  destruct (Region.default_dates self start_date end_date) as [ds de] eqn:Hd.
  destruct ds as [s|]; [destruct de as [e|]|];
    try (exfalso;
         destruct (region_export_without_dates to_polygons fuel today remote self
                     bbox dest_path dest_bucket end_date start_date metres)
           as [_ [x Hx]];
         [intros s' e' H; rewrite Hd in H; discriminate
         |rewrite Hx in Hret; discriminate]).
  rewrite (region_export_with_dates to_polygons fuel today remote self bbox
             dest_path dest_bucket end_date start_date metres s e Hd) in *.
  cbv zeta in *.
  change (trace (?a, ?b)) with a.
  change (outcome (?a, ?b)) with b in Hret.
  pose proof (regions_and_ids_lengths to_polygons bbox metres
                (Region.general_identifier dest_path s e)) as Hlen.
  pose proof (regions_and_ids_nodup to_polygons bbox metres
                (Region.general_identifier dest_path s e)) as Hnd.
  set (ri := Region.regions_and_ids to_polygons bbox metres
               (Region.general_identifier dest_path s e)) in *.
  assert (Hregions : fst ri = match metres with
                              | Some m => to_polygons bbox m
                              | None => [EEPolygon bbox]
                              end).
  { unfold ri, Region.regions_and_ids. destruct metres; reflexivity. }
  set (loop := Region.export_polygons fuel today self dest_path dest_bucket s e
                 (List.combine (snd ri) (fst ri))) in *.
  destruct (outcome loop) as [[]| |] eqn:Ho; try discriminate.
  inversion Hret; subst ids. clear Hret.
  pose proof (auth_trace_quiet remote self) as [Hq _].
  rewrite exports_app, Hq. cbn [app].
  destruct (Z.ltb_spec today e) as [Hfut|Hpast].
  - unfold loop in *. rewrite export_polygons_future in * by exact Hfut.
    destruct (List.combine (snd ri) (fst ri)) eqn:Hc; cbn in Ho; [|discriminate].
    assert (Hnil : snd ri = []).
    { destruct (snd ri) as [|i0 ids0]; [reflexivity|].
      destruct (fst ri); cbn in Hlen, Hc; discriminate. }
    rewrite Hnil in *. rewrite <- Hregions.
    destruct (fst ri); [|cbn in Hlen; discriminate].
    cbn. repeat split. constructor.
  - destruct (export_polygons_past fuel today self dest_path dest_bucket s e
                (List.combine (snd ri) (fst ri)) Hpast) as [_ Hok].
    fold loop in Hok. destruct (Hok Ho) as [H1 [H2 [H3 _]]].
    rewrite H1, H2, H3, map_fst_combine, map_snd_combine by assumption.
    split; [exact Hnd|]. split; [reflexivity|]. split; [exact Hregions|].
    rewrite <- (map_fst_combine (snd ri) (fst ri) Hlen) at 2.
    rewrite map_map. reflexivity.
Qed.

Lemma region_export_identifiers_witness :
  NoDup ["0_Togo_2020-01-07_2021-01-01"; "1_Togo_2020-01-07_2021-01-01"].
Proof.
  exact (proj1 (region_export_identifiers
                  (fun b _ => [EEPolygon b; EEPolygon b]) 20 Example.today
                  (Example.remote_with false []) Example.exporter_defaults
                  Example.box80 "gs/Togo" None (Some Example.end_2021) None
                  (Some 10000) _ eq_refl)).
Defined.

(** One call of [_export_for_polygon] that returns has submitted one
    export, of the steps that fit. *)
Lemma export_for_polygon_returns_steps (fuel : nat) (today : date)
    (self : EarthEngineExporter) (p : polygon) (start_date end_date : date)
    (file_name_prefix description : string) (dest_bucket : option string) :
  0 < days_per_timestep self ->
  let r := _export_for_polygon fuel today self p start_date end_date
             file_name_prefix description dest_bucket in
  outcome r = Returns tt ->
  exists call (k : nat),
    Region.exports (trace r) = [call]
    /\ windows_of (ex_images call)
       = Spec.steps start_date (days_per_timestep self) k
    /\ end_date < start_date + (Z.of_nat k + 1) * days_per_timestep self
    /\ (k = 0%nat
        \/ start_date + Z.of_nat k * days_per_timestep self <= end_date).
Proof.
  intros Hd r. unfold r, _export_for_polygon. clear r.
  destruct (today <? end_date); [discriminate|].
  pose proof (while_cur_date_shape (fast self) p (days_per_timestep self)
                end_date fuel start_date []) as [imgs [Ht _]].
  pose proof (while_cur_date_returns_steps (fast self) p
                (days_per_timestep self) end_date fuel Hd start_date []) as Hk.
  destruct (while_cur_date fuel (export_func (fast self)) p
              (days_per_timestep self) end_date start_date []) as [t [l| |]];
    try discriminate.
  intros _. unfold trace, outcome in *. cbn [fst snd] in Ht, Hk. subst t.
  destruct (Hk l eq_refl) as [k [Hl [Hlt Hle]]]. cbn [app] in Hl. subst l.
  cbn [bind cloudfree_export emit fst snd].
  eexists. exists k. rewrite exports_app, exports_single_images. cbn.
  split; [reflexivity|]. split; [apply windows_of_image_of|].
  split; [exact Hlt|exact Hle].
Qed.

Lemma export_polygons_returns_steps (fuel : nat) (today : date)
    (self : EarthEngineExporter) (dest_path : string)
    (dest_bucket : option string) (start_date end_date : date)
    (pairs : list (string * polygon)) :
  0 < days_per_timestep self ->
  let r := Region.export_polygons fuel today self dest_path dest_bucket
             start_date end_date pairs in
  outcome r = Returns tt ->
  List.length (Region.exports (trace r)) = List.length pairs
  /\ Forall
       (fun call =>
          exists k : nat,
            windows_of (ex_images call)
            = Spec.steps start_date (days_per_timestep self) k
            /\ end_date < start_date + (Z.of_nat k + 1) * days_per_timestep self
            /\ (k = 0%nat
                \/ start_date + Z.of_nat k * days_per_timestep self <= end_date))
       (Region.exports (trace r)).
Proof.
  intros Hd. induction pairs as [|[identifier region] pairs IH]; intros r Hret.
  - split; [reflexivity|constructor].
  - unfold r in *. cbn [Region.export_polygons] in *.
    pose proof (export_for_polygon_returns_steps fuel today self region
                  start_date end_date
                  (dest_path ++ "/batch_" ++ identifier ++ "/" ++ identifier)
                  identifier dest_bucket Hd) as Hone.
    cbv zeta in Hone, IH.
    destruct (_export_for_polygon fuel today self region start_date end_date
                (dest_path ++ "/batch_" ++ identifier ++ "/" ++ identifier)
                identifier dest_bucket) as [t1 [[]| |]]; try discriminate.
    destruct (Hone eq_refl) as [call [k [He Hk]]].
    destruct (Region.export_polygons fuel today self dest_path dest_bucket
                start_date end_date pairs) as [t2 o2].
    unfold trace, outcome in *. cbn [bind fst snd] in *.
    destruct (IH Hret) as [Hlen Hall].
    rewrite exports_app, He. cbn [app List.length].
    split; [rewrite Hlen; reflexivity|].
    constructor; [exists k; exact Hk|exact Hall].
Qed.

(** The number of steps [k] that fit a range of [n] steps is [n]. *)
Lemma whole_steps_count (s e d n : Z) (k : nat) :
  0 < d ->
  e = s + d * n ->
  e < s + (Z.of_nat k + 1) * d ->
  (k = 0%nat \/ s + Z.of_nat k * d <= e) ->
  k = Z.to_nat n.
Proof.
  intros Hd He Hlt [->|Hle].
  - assert (n <= 0) by nia. lia.
  - assert (Z.of_nat k <= n) by nia. assert (n < Z.of_nat k + 1) by nia. lia.
Qed.

(** X6: when [RegionExporter.export] is given only one of the two dates, it
    takes the other one [days_per_timestep * num_timesteps] days away; with
    a positive step, whenever it returns it has submitted one export for
    each identifier it returns, and the image of each export is made of
    exactly [num_timesteps] step images (none when [num_timesteps] is
    negative), the consecutive steps of [days_per_timestep] days that fill
    the range from the start date to the end date with nothing left over. *)
Theorem region_export_default_range
    (to_polygons : BoundingBox -> Z -> list polygon)
    (fuel : nat) (today : date) (remote : Remote) (self : EarthEngineExporter)
    (bbox : BoundingBox) (dest_path : string) (dest_bucket : option string)
    (end_date start_date : option date) (metres : option Z) (s e : date)
    (ids : list string) :
  start_date = None \/ end_date = None ->
  Region.default_dates self start_date end_date = (Some s, Some e) ->
  0 < days_per_timestep self ->
  outcome (Region.export to_polygons fuel today remote self bbox dest_path
             dest_bucket end_date start_date metres) = Returns ids ->
  let calls :=
    Region.exports
      (trace (Region.export to_polygons fuel today remote self bbox dest_path
                dest_bucket end_date start_date metres)) in
  e = s + days_per_timestep self * num_timesteps self
  /\ List.length calls = List.length ids
  /\ Forall (fun call =>
               windows_of (ex_images call)
               = Spec.steps s (days_per_timestep self)
                   (Z.to_nat (num_timesteps self))
               /\ List.length (ex_images call) = Z.to_nat (num_timesteps self))
            calls.
Proof.
  intros Hone Hd Hstep Hret calls. unfold calls. clear calls.
  assert (He : e = s + days_per_timestep self * num_timesteps self).
  { unfold Region.default_dates, add_days in Hd.
    destruct start_date as [s0|], end_date as [e0|];
      try (destruct Hone; discriminate); inversion Hd; subst; lia. }
  split; [exact He|].
  rewrite (region_export_with_dates to_polygons fuel today remote self bbox
             dest_path dest_bucket end_date start_date metres s e Hd) in *.
  cbv zeta in *.
  change (trace (?a, ?b)) with a.
  change (outcome (?a, ?b)) with b in Hret.
  pose proof (regions_and_ids_lengths to_polygons bbox metres
                (Region.general_identifier dest_path s e)) as Hlen.
  set (ri := Region.regions_and_ids to_polygons bbox metres
               (Region.general_identifier dest_path s e)) in *.
  pose proof (export_polygons_returns_steps fuel today self dest_path
                dest_bucket s e (List.combine (snd ri) (fst ri)) Hstep) as Hloop.
  cbv zeta in Hloop.
  destruct (outcome (Region.export_polygons fuel today self dest_path
                       dest_bucket s e (List.combine (snd ri) (fst ri))))
    as [[]| |] eqn:Ho; try discriminate.
  inversion Hret; subst ids. clear Hret.
  destruct (Hloop eq_refl) as [Hn Hall].
  rewrite exports_app, (proj1 (auth_trace_quiet remote self)). cbn [app].
  split.
  - rewrite Hn, length_combine, Hlen. apply Nat.min_id.
  - eapply Forall_impl; [|exact Hall].
    intros call [k [Hw [Hlt Hle]]].
    assert (Hk : k = Z.to_nat (num_timesteps self))
      by (apply (whole_steps_count s e (days_per_timestep self)
                   (num_timesteps self) k Hstep He Hlt Hle)).
    subst k. split; [exact Hw|].
    apply (f_equal (@List.length _)) in Hw.
    unfold windows_of, Spec.steps in Hw. rewrite !length_map, length_seq in Hw.
    exact Hw.
Qed.

Lemma region_export_default_range_witness :
  Forall (fun call =>
            windows_of (ex_images call)
            = Spec.steps (_ymd2ord 2020 1 7) 30 12
            /\ List.length (ex_images call) = 12%nat)
         (Region.exports
            (trace (Region.export (fun b _ => [EEPolygon b; EEPolygon b]) 20
                      Example.today (Example.remote_with false [])
                      Example.exporter_defaults Example.box80 "gs/Togo" None
                      (Some Example.end_2021) None (Some 10000)))).
Proof.
  exact (proj2 (proj2 (region_export_default_range
                  (fun b _ => [EEPolygon b; EEPolygon b]) 20 Example.today
                  (Example.remote_with false []) Example.exporter_defaults
                  Example.box80 "gs/Togo" None (Some Example.end_2021) None
                  (Some 10000) (_ymd2ord 2020 1 7) Example.end_2021 _
                  (or_introl eq_refl) eq_refl eq_refl eq_refl))).
Defined.

(* ================================================================== *)
(** ** Further properties: [LabelExporter.export] *)


(** X7: when [LabelExporter.export] returns, its second counter is the
    number of labels whose output is already in the bucket (storage check
    on) and its first counter the number of all the other labels: the two
    add up to the number of labels, and the "exporting" counter also counts
    the labels skipped as pending or for capacity. *)
Theorem label_export_counters
    (fuel : nat) (today : date) (self : LabelExporter) (labels : list label)
    (amount_exporting amount_exported : Z) :
  outcome (export fuel today self labels)
  = Returns (amount_exporting, amount_exported) ->
  amount_exported
  = Z.of_nat (List.length (filter (Labels.output_exists self) labels))
  /\ amount_exporting
     = Z.of_nat (List.length
                   (filter (fun row => negb (Labels.output_exists self row)) labels)).
Proof.
  intros H. apply export_outcome_returns in H.
  apply export_rows_counts in H. destruct H as [Hy Hsum].
  split; [lia|].
  pose proof (filter_length (Labels.output_exists self) labels) as Hlen.
  lia.
Qed.

Lemma label_export_counters_witness :
  (1 : Z) = Z.of_nat
              (List.length
                 (filter (Labels.output_exists
                            (built (Example.remote_with false Example.running_3000)
                                   (Example.label_args true true)))
                         [{| label_bbox := Example.box80;
                             label_start := Example.start_2020;
                             label_end := Example.end_2021 |};
                          {| label_bbox := Example.box_a;
                             label_start := Example.start_2020;
                             label_end := Example.tomorrow |}])).
Proof.
  exact (proj1 (label_export_counters 5 Example.today
                  (built (Example.remote_with false Example.running_3000)
                         (Example.label_args true true))
                  [{| label_bbox := Example.box80;
                      label_start := Example.start_2020;
                      label_end := Example.end_2021 |};
                   {| label_bbox := Example.box_a;
                      label_start := Example.start_2020;
                      label_end := Example.tomorrow |}] 1 1
                  ltac:(vm_compute; reflexivity))).
Defined.

(** X8: [LabelExporter.export] does not isolate a failing label: when the
    request of a label raises, the export raises too (or has stopped
    earlier) and the labels after it are never processed -- the whole
    export is what it would be without them. *)
Theorem label_export_stops_at_failing_label
    (fuel : nat) (today : date) (self : LabelExporter)
    (pre post : list label) (row : label) (e : exn) :
  outcome (Labels.request fuel today self row) = Raises e ->
  export fuel today self (pre ++ row :: post)
  = export fuel today self (pre ++ [row])
  /\ forall counts,
       outcome (export fuel today self (pre ++ row :: post)) <> Returns counts.
Proof.
  intros Hrow.
  assert (Heq : export fuel today self (pre ++ row :: post)
                = export fuel today self (pre ++ [row])).
  { unfold export. rewrite (export_rows_stops fuel today self pre post row e Hrow).
    reflexivity. }
  split; [exact Heq|]. rewrite Heq. intros counts H.
  apply export_outcome_returns in H.
  exact (export_rows_does_not_return fuel today self pre row e Hrow 0 0 counts H).
Qed.

Lemma label_export_stops_at_failing_label_witness :
  export 5 Example.today
    (built (Example.remote_with false []) (Example.label_args true true))
    [{| label_bbox := Example.box_a;
        label_start := Example.start_2020;
        label_end := Example.tomorrow |};
     {| label_bbox := Example.box80;
        label_start := Example.start_2020;
        label_end := Example.end_2021 |}]
  = ([EvConsult StorageCheck; EvConsult PendingCheck; EvConsult CapacityCheck],
     Raises (ValueError "2021-06-02 is in the future")).
Proof.
  exact (eq_trans
           (proj1 (label_export_stops_at_failing_label 5 Example.today
                     (built (Example.remote_with false [])
                            (Example.label_args true true))
                     []
                     [{| label_bbox := Example.box80;
                         label_start := Example.start_2020;
                         label_end := Example.end_2021 |}]
                     {| label_bbox := Example.box_a;
                        label_start := Example.start_2020;
                        label_end := Example.tomorrow |}
                     (ValueError "2021-06-02 is in the future") eq_refl))
           eq_refl).
Defined.

(** X9: a pass over labels whose outputs are all in the bucket already
    (storage check on) asks the services for nothing: every label is
    answered from the list held by the exporter, whatever its dates and
    whatever the task list, and the export returns with all the labels
    counted as existing. *)
Theorem label_export_of_existing_outputs
    (fuel : nat) (today : date) (self : LabelExporter) (labels : list label) :
  (forall row, In row labels -> Labels.output_exists self row = true) ->
  remote_calls (trace (export fuel today self labels)) = []
  /\ Region.exports (trace (export fuel today self labels)) = []
  /\ outcome (export fuel today self labels)
     = Returns (0, Z.of_nat (List.length labels)).
Proof.
  intros Hall. unfold export.
  rewrite (export_rows_all_exist fuel today self labels Hall 0 0).
  rewrite bind_returns. cbn [fst snd Z.ltb Z.compare bind ret].
  assert (Hr : remote_calls (map (fun _ => EvConsult StorageCheck) labels) = []).
  { induction labels; [reflexivity|]. cbn. apply IHlabels.
    intros r Hr. apply Hall. right. exact Hr. }
  assert (He : Region.exports (map (fun _ => EvConsult StorageCheck) labels) = []).
  { clear. induction labels; [reflexivity|assumption]. }
  destruct (0 <? 0 + Z.of_nat (List.length labels)); cbn;
    unfold remote_calls in *; rewrite ?filter_app, ?exports_app, ?app_nil_r, Hr, He;
    repeat split.
Qed.

Lemma label_export_of_existing_outputs_witness :
  outcome (export 0 Example.today
             (built (Example.remote_with true Example.running_3000)
                    (Example.label_args true true))
             [{| label_bbox := Example.box80;
                 label_start := Example.start_2020;
                 label_end := Example.end_2021 |}])
  = Returns (0, 1).
Proof.
  apply (label_export_of_existing_outputs 0 Example.today
           (built (Example.remote_with true Example.running_3000)
                  (Example.label_args true true))
           [{| label_bbox := Example.box80;
               label_start := Example.start_2020;
               label_end := Example.end_2021 |}]).
  intros row [<-|[]]. vm_compute. reflexivity.
Defined.

(* ================================================================== *)
(** ** Further properties: [export] and [monitor_task] of
    [cloudfree/utils.py] *)

Section TaskLemmas.

Import TaskUtils.

Variable Img : Type.
Variable a : answers.

Lemma monitor_task_round (fuel k : nat) :
  in_progress (status_at a k) = true ->
  monitor_task Img (S fuel) a k
  = (([EvStatus Img k; EvStatus Img (S k); EvLogInfo Img (status_at a (S k))]
      ++ trace (monitor_task Img fuel a (S (S k))))%list,
     outcome (monitor_task Img fuel a (S (S k)))).
Proof.
  intros H. cbn [monitor_task]. rewrite H.
  destruct (monitor_task Img fuel a (S (S k))) as [t o]. reflexivity.
Qed.

Lemma monitor_task_stops (fuel k : nat) :
  in_progress (status_at a k) = false ->
  monitor_task Img (S fuel) a k = ([EvStatus Img k], Returns tt).
Proof. intros H. cbn [monitor_task]. rewrite H. reflexivity. Qed.

Lemma status_calls_app (t1 t2 : list (event Img)) :
  status_calls Img (t1 ++ t2) = (status_calls Img t1 ++ status_calls Img t2)%list.
Proof. apply flat_map_app. Qed.

Lemma logged_states_app (t1 t2 : list (event Img)) :
  logged_states Img (t1 ++ t2)
  = (logged_states Img t1 ++ logged_states Img t2)%list.
Proof. apply flat_map_app. Qed.

(** From the [k]-th status on: [j] rounds in progress, then a state that is
    not. *)
Lemma monitor_task_from (j : nat) :
  forall (k fuel : nat),
    (forall i, (i < j)%nat -> in_progress (status_at a (k + 2 * i)) = true) ->
    in_progress (status_at a (k + 2 * j)) = false ->
    (j < fuel)%nat ->
    outcome (monitor_task Img fuel a k) = Returns tt
    /\ status_calls Img (trace (monitor_task Img fuel a k)) = seq k (2 * j + 1)
    /\ logged_states Img (trace (monitor_task Img fuel a k))
       = map (fun i => status_at a (k + 2 * i + 1)) (seq 0 j).
Proof.
  induction j as [|j IH]; intros k fuel Hbusy Hdone Hfuel.
  - destruct fuel as [|fuel]; [lia|].
    rewrite Nat.mul_0_r, Nat.add_0_r in Hdone.
    rewrite (monitor_task_stops fuel k Hdone). repeat split.
  - destruct fuel as [|fuel]; [lia|].
    assert (H0 : in_progress (status_at a k) = true).
    { specialize (Hbusy O ltac:(lia)). rewrite Nat.mul_0_r, Nat.add_0_r in Hbusy.
      exact Hbusy. }
    rewrite (monitor_task_round fuel k H0).
    change (outcome (?x, ?y)) with y. change (trace (?x, ?y)) with x.
    destruct (IH (S (S k)) fuel) as [Ho [Hs Hl]].
    + intros i Hi. specialize (Hbusy (S i) ltac:(lia)).
      replace (S (S k) + 2 * i)%nat with (k + 2 * S i)%nat by lia. exact Hbusy.
    + replace (S (S k) + 2 * j)%nat with (k + 2 * S j)%nat by lia. exact Hdone.
    + lia.
    + split; [exact Ho|].
      rewrite status_calls_app, logged_states_app, Hs, Hl. split.
      * cbn [status_calls flat_map app].
        replace (2 * S j + 1)%nat with (S (S (2 * j + 1))) by lia. reflexivity.
      * cbn [logged_states flat_map app seq map].
        f_equal; [f_equal; lia|].
        rewrite <- seq_shift, map_map. apply map_ext. intros i. f_equal. lia.
Qed.

Lemma monitor_task_busy (fuel : nat) :
  forall k,
    (forall i, in_progress (status_at a (k + 2 * i)) = true) ->
    outcome (monitor_task Img fuel a k) = OutOfFuel.
Proof.
  induction fuel as [|fuel IH]; intros k Hbusy; [reflexivity|].
  assert (H0 : in_progress (status_at a k) = true).
  { specialize (Hbusy O). rewrite Nat.mul_0_r, Nat.add_0_r in Hbusy. exact Hbusy. }
  rewrite (monitor_task_round fuel k H0). change (outcome (?x, ?y)) with y.
  apply IH. intros i. specialize (Hbusy (S i)).
  replace (S (S k) + 2 * i)%nat with (k + 2 * S i)%nat by lia. exact Hbusy.
Qed.

End TaskLemmas.

(** X10: [monitor_task] asks for the status twice in each round, testing
    the first answer and logging the second; it returns at the first round
    whose tested state is neither READY nor RUNNING, after [2 j + 1] status
    calls and [j] log lines when that is round [j]. *)
Theorem monitor_task_returns_at_first_other_state
    (Img : Type) (a : TaskUtils.answers) (j fuel : nat) :
  (forall i, (i < j)%nat ->
     TaskUtils.in_progress (TaskUtils.status_at a (2 * i)) = true) ->
  TaskUtils.in_progress (TaskUtils.status_at a (2 * j)) = false ->
  (j < fuel)%nat ->
  outcome (TaskUtils.monitor_task Img fuel a 0) = Returns tt
  /\ TaskUtils.status_calls Img (trace (TaskUtils.monitor_task Img fuel a 0))
     = seq 0 (2 * j + 1)
  /\ TaskUtils.logged_states Img (trace (TaskUtils.monitor_task Img fuel a 0))
     = map (fun i => TaskUtils.status_at a (2 * i + 1)) (seq 0 j).
Proof.
  intros Hbusy Hdone Hfuel.
  exact (monitor_task_from Img a j 0 fuel Hbusy Hdone Hfuel).
Qed.

Lemma monitor_task_returns_at_first_other_state_witness :
  TaskUtils.logged_states unit
    (trace (TaskUtils.monitor_task unit 5
              {| TaskUtils.start_raises := None;
                 TaskUtils.status_at :=
                   fun k => nth k ["READY"; "RUNNING"; "RUNNING"; "COMPLETED"]
                                "COMPLETED" |} 0))
  = ["RUNNING"; "COMPLETED"].
Proof.
  apply (monitor_task_returns_at_first_other_state unit
           {| TaskUtils.start_raises := None;
              TaskUtils.status_at :=
                fun k => nth k ["READY"; "RUNNING"; "RUNNING"; "COMPLETED"]
                             "COMPLETED" |} 2 5).
  - intros [|[|i]] Hi; [reflexivity|reflexivity|lia].
  - reflexivity.
  - lia.
Defined.

(** X11: [monitor_task] does not return while the task is reported READY
    or RUNNING: as long as every tested state is one of the two, any number
    of rounds is used up. *)
Theorem monitor_task_waits_while_in_progress
    (Img : Type) (a : TaskUtils.answers) (fuel : nat) :
  (forall i, TaskUtils.in_progress (TaskUtils.status_at a (2 * i)) = true) ->
  outcome (TaskUtils.monitor_task Img fuel a 0) = OutOfFuel.
Proof. intros Hbusy. exact (monitor_task_busy Img a fuel 0 Hbusy). Qed.

Lemma monitor_task_waits_while_in_progress_witness :
  outcome (TaskUtils.monitor_task unit 7
             {| TaskUtils.start_raises := None;
                TaskUtils.status_at := fun _ => "RUNNING" |} 0)
  = OutOfFuel.
Proof.
  apply monitor_task_waits_while_in_progress. intros i. reflexivity.
Defined.

(** X12: [export] of [cloudfree/utils.py] never lets an [EEException] of
    [task.start()] out: it logs one error and returns the task, and it then
    never asks for the status of the task, even with [monitor] set; an
    exception that is not an [EEException] is raised to the caller. *)
Theorem export_swallows_start_failure
    (Img : Type) (fuel : nat) (a : TaskUtils.answers) (image : Img)
    (region : polygon) (filename drive_folder : string) (monitor : bool)
    (file_dimensions : option Z) (e : exn) :
  TaskUtils.start_raises a = Some e ->
  let r := TaskUtils.export Img fuel a image region filename drive_folder
             monitor file_dimensions in
  TaskUtils.status_calls Img (trace r) = []
  /\ match e with
     | EEException msg =>
         exists task,
           outcome r = Returns task
           /\ TaskUtils.et_description Img task = filename
           /\ TaskUtils.et_fileNamePrefix Img task = drive_folder ++ "/" ++ filename
           /\ exists t, trace r
                = (t ++ [TaskUtils.EvLogError Img
                           ("Task not started! Got exception " ++ msg)])%list
     | ValueError _ => outcome r = Raises e
     end.
Proof.
  intros Hs r. unfold r, TaskUtils.export, TaskUtils.start. rewrite Hs.
  destruct e as [msg|msg]; cbn; (split; [reflexivity|]).
  - reflexivity.
  - eexists. split; [reflexivity|]. split; [reflexivity|]. split; [reflexivity|].
    exists [TaskUtils.EvCreate Img
              {| TaskUtils.et_image := image;
                 TaskUtils.et_region := region;
                 TaskUtils.et_bucket := "ee-data-to-be-split";
                 TaskUtils.et_description := filename;
                 TaskUtils.et_fileNamePrefix := drive_folder ++ "/" ++ filename;
                 TaskUtils.et_scale := 10;
                 TaskUtils.et_maxPixels := 10 ^ 13;
                 TaskUtils.et_fileDimensions := file_dimensions |};
            TaskUtils.EvStart Img].
    reflexivity.
Qed.

Lemma export_swallows_start_failure_witness :
  TaskUtils.status_calls unit
    (trace (TaskUtils.export unit 5
              {| TaskUtils.start_raises := Some (EEException "quota");
                 TaskUtils.status_at := fun _ => "RUNNING" |}
              tt (EEPolygon Example.box80) "Togo" "folder" true None))
  = [].
Proof.
  exact (proj1 (export_swallows_start_failure unit 5
                  {| TaskUtils.start_raises := Some (EEException "quota");
                     TaskUtils.status_at := fun _ => "RUNNING" |}
                  tt (EEPolygon Example.box80) "Togo" "folder" true None
                  (EEException "quota") eq_refl)).
Defined.

(* ================================================================== *)
(** ** Further properties: [load_tif] of [src/utils.py] *)

Section ChunkLemmas.

Variable D : Type.

(** The slices the loop of [load_tif] takes. *)
Lemma while_cur_band_slices (da : list D) (b k : nat) :
  forall (n fuel j : nat) (acc : list (list D)),
    (0 < b)%nat -> (j + n = k)%nat -> (n < fuel)%nat ->
    Utils.while_cur_band D fuel da b (k * b) (j * b) acc
    = Utils.Done
        (acc ++ map (fun i => firstn b (skipn (i * b) da)) (seq j n))%list.
Proof.
  induction n as [|n IH]; intros fuel j acc Hb Hk Hfuel;
    (destruct fuel as [|fuel]; [lia|]); cbn [Utils.while_cur_band].
  - assert (Hle : (j * b + b <=? k * b)%nat = false).
    { apply Nat.leb_gt. assert (j = k) by lia. subst j. lia. }
    rewrite Hle. cbn. rewrite app_nil_r. reflexivity.
  - assert (Hle : (j * b + b <=? k * b)%nat = true).
    { apply Nat.leb_le. assert (S j <= k)%nat by lia. nia. }
    rewrite Hle.
    replace (j * b + b)%nat with (S j * b)%nat by lia.
    rewrite (IH fuel (S j)); [|exact Hb|lia|lia].
    rewrite <- app_assoc. reflexivity.
Qed.

Lemma firstn_app_length (g r : list D) :
  firstn (List.length g) (g ++ r) = g.
Proof. induction g as [|x g IH]; cbn; [reflexivity|]. rewrite IH. reflexivity. Qed.

Lemma skipn_app_length (n : nat) (g r : list D) :
  skipn (List.length g + n) (g ++ r) = skipn n r.
Proof. induction g as [|x g IH]; cbn; [reflexivity|exact IH]. Qed.

Lemma slices_concat (b : nat) (groups : list (list D)) :
  Forall (fun g => List.length g = b) groups ->
  map (fun i => firstn b (skipn (i * b) (List.concat groups)))
      (seq 0 (List.length groups))
  = groups.
Proof.
  induction groups as [|g groups IH]; intros Hall; [reflexivity|].
  inversion Hall as [|g' groups' Hg Hrest]; subst.
  cbn [List.length seq map List.concat].
  f_equal.
  - cbn [Nat.mul skipn]. apply firstn_app_length.
  - rewrite <- seq_shift, map_map.
    transitivity (map (fun i => firstn (List.length g)
                                  (skipn (i * List.length g) (List.concat groups)))
                      (seq 0 (List.length groups))); [|exact (IH Hrest)].
    apply map_ext. intros i. f_equal.
    replace (S i * List.length g)%nat
      with (List.length g + i * List.length g)%nat by lia.
    apply skipn_app_length.
Qed.

Lemma concat_slices (b k : nat) :
  forall da : list D,
    List.length da = (k * b)%nat ->
    List.concat (map (fun i => firstn b (skipn (i * b) da)) (seq 0 k)) = da.
Proof.
  induction k as [|k IH]; intros da Hlen.
  - destruct da; [reflexivity|discriminate].
  - cbn [seq map List.concat]. cbn [Nat.mul skipn].
    rewrite <- seq_shift, map_map.
    transitivity (firstn b da ++ skipn b da)%list; [|apply firstn_skipn].
    f_equal.
    transitivity (List.concat
                    (map (fun i => firstn b (skipn (i * b) (skipn b da)))
                         (seq 0 k))).
    + f_equal. apply map_ext. intros i. f_equal.
      replace (S i * b)%nat with (i * b + b)%nat by lia.
      symmetry. apply skipn_skipn.
    + apply IH. rewrite length_skipn. lia.
Qed.

Lemma slices_length (b k : nat) (da : list D) :
  List.length da = (k * b)%nat ->
  Forall (fun g => List.length g = b)
         (map (fun i => firstn b (skipn (i * b) da)) (seq 0 k)).
Proof.
  intros Hlen. apply Forall_forall. intros g Hg.
  apply in_map_iff in Hg. destruct Hg as [i [<- Hi]]. apply in_seq in Hi.
  rewrite length_firstn, length_skipn.
  assert (S i <= k)%nat by lia. nia.
Qed.

Variable BANDS : list string.
Variable scale : D -> D.

(** [load_tif] on a raster of [k >= 1] times [len(BANDS)] bands. *)
Lemma load_tif_slices (fuel k : nat) (raster : list D) (start_date : PyDate.date)
    (days_per_timestep : Z) :
  (0 < List.length BANDS)%nat ->
  (0 < k)%nat ->
  List.length raster = (k * List.length BANDS)%nat ->
  (k < fuel)%nat ->
  Utils.load_tif D BANDS scale fuel raster start_date days_per_timestep
  = Utils.Done
      (List.combine
         (map (fun i => start_date + days_per_timestep * Z.of_nat i) (seq 0 k))
         (map (fun i => firstn (List.length BANDS)
                          (skipn (i * List.length BANDS) (map scale raster)))
              (seq 0 k))).
Proof.
  intros Hb Hk Hlen Hfuel. unfold Utils.load_tif.
  destruct (List.length BANDS =? 0)%nat eqn:Hz;
    [apply Nat.eqb_eq in Hz; lia|].
  cbv zeta. rewrite length_map, Hlen, Nat.Div0.mod_mul. cbn [Nat.eqb negb].
  pose proof (while_cur_band_slices (map scale raster) (List.length BANDS) k k
                fuel 0 [] Hb eq_refl Hfuel) as Hw.
  change (0 * List.length BANDS)%nat with 0%nat in Hw. rewrite Hw.
  cbn [app]. rewrite length_map, length_seq.
  destruct k as [|k]; [lia|]. reflexivity.
Qed.

End ChunkLemmas.

(** X13: with [BANDS] not empty, [load_tif] returns exactly when the
    raster has a positive multiple of [len(BANDS)] bands: the time steps
    then hold [len(BANDS)] bands each, are dated [start_date + i *
    days_per_timestep], and put end to end are the scaled bands of the
    raster in their order; a band count that is no multiple fails the
    assertion and a raster without band fails in [xr.concat].  The loop
    always ends. *)
Theorem load_tif_splits_every_band
    (D : Type) (BANDS : list string) (scale : D -> D) (fuel : nat)
    (raster : list D) (start_date : PyDate.date) (days_per_timestep : Z) :
  (0 < List.length BANDS)%nat ->
  (List.length raster < fuel)%nat ->
  match Utils.load_tif D BANDS scale fuel raster start_date days_per_timestep with
  | Utils.Done steps =>
      raster <> []
      /\ List.length raster = (List.length steps * List.length BANDS)%nat
      /\ map fst steps
         = map (fun i => start_date + days_per_timestep * Z.of_nat i)
               (seq 0 (List.length steps))
      /\ List.concat (map snd steps) = map scale raster
      /\ Forall (fun step => List.length (snd step) = List.length BANDS) steps
  | Utils.Raise Utils.AssertionError =>
      (List.length raster mod List.length BANDS)%nat <> 0%nat
  | Utils.Raise Utils.ValueError => raster = []
  | Utils.Raise _ => False
  | Utils.NoFuel => False
  end.
Proof.
  intros Hb Hfuel.
  destruct (List.length raster mod List.length BANDS =? 0)%nat eqn:Hmod.
  - apply Nat.eqb_eq in Hmod.
    apply Nat.Div0.div_exact in Hmod.
    set (k := (List.length raster / List.length BANDS)%nat) in *.
    destruct (Nat.eq_dec k 0) as [Hk0|Hk0].
    + assert (Hnil : raster = []).
      { destruct raster; [reflexivity|]. cbn [List.length] in Hmod. lia. }
      subst raster. unfold Utils.load_tif.
      destruct (List.length BANDS =? 0)%nat eqn:Hz;
        [apply Nat.eqb_eq in Hz; lia|].
      cbn [map List.length]. rewrite Nat.Div0.mod_0_l. cbn [Nat.eqb negb].
      destruct fuel as [|fuel]; [cbn in Hfuel; lia|].
      cbn [Utils.while_cur_band].
      destruct (0 + List.length BANDS <=? 0)%nat eqn:Hle;
        [apply Nat.leb_le in Hle; lia|].
      reflexivity.
    + assert (Hlen : List.length raster = (k * List.length BANDS)%nat) by lia.
      assert (Hkf : (k < fuel)%nat) by nia.
      rewrite (load_tif_slices D BANDS scale fuel k raster start_date
                 days_per_timestep Hb ltac:(lia) Hlen Hkf).
      cbv beta iota. unfold PyDate.date in *.
      set (dates := map (fun i => start_date + days_per_timestep * Z.of_nat i)
                        (seq 0 k)).
      set (slices := map (fun i => firstn (List.length BANDS)
                                     (skipn (i * List.length BANDS)
                                            (map scale raster)))
                         (seq 0 k)).
      assert (Hd : List.length dates = k)
        by (unfold dates; rewrite length_map, length_seq; reflexivity).
      assert (Hs : List.length slices = k)
        by (unfold slices; rewrite length_map, length_seq; reflexivity).
      assert (Hl : List.length (List.combine dates slices) = k)
        by (rewrite length_combine, Hd, Hs; apply Nat.min_id).
      split; [intros ->; cbn in Hlen; lia|].
      split; [rewrite Hl; exact Hlen|].
      split; [rewrite Hl; apply map_fst_combine; exact (eq_trans Hd (eq_sym Hs))|].
      rewrite map_snd_combine by exact (eq_trans Hd (eq_sym Hs)).
      split.
      * apply concat_slices. rewrite length_map. exact Hlen.
      * assert (Hf := slices_length D (List.length BANDS) k (map scale raster)
                        ltac:(rewrite length_map; exact Hlen)).
        rewrite Forall_forall in Hf |- *. intros [d g] Hin. cbn [snd].
        apply Hf. apply in_combine_r in Hin. exact Hin.
  - unfold Utils.load_tif.
    destruct (List.length BANDS =? 0)%nat eqn:Hz;
      [apply Nat.eqb_eq in Hz; lia|].
    rewrite length_map, Hmod. cbn [negb].
    apply Nat.eqb_neq in Hmod. exact Hmod.
Qed.

Lemma load_tif_splits_every_band_witness :
  exists steps,
    Utils.load_tif Z ["B2"; "B3"] (fun x => x / 10000) 5
      [10000; 20000; 30000; 40000] Example.start_2020 30 = Utils.Done steps
    /\ List.concat (map snd steps) = [1; 2; 3; 4].
Proof.
  pose proof (load_tif_splits_every_band Z ["B2"; "B3"] (fun x => x / 10000) 5
                [10000; 20000; 30000; 40000] Example.start_2020 30
                ltac:(cbn; lia) ltac:(cbn; lia)) as H.
  destruct (Utils.load_tif Z ["B2"; "B3"] (fun x => x / 10000) 5
              [10000; 20000; 30000; 40000] Example.start_2020 30)
    as [steps|[| | |]|].
  - exists steps. split; [reflexivity|].
    exact (proj1 (proj2 (proj2 (proj2 H)))).
  - discriminate H.
  - destruct H.
  - exfalso. apply H. reflexivity.
  - destruct H.
  - destruct H.
Defined.

(** X14: [load_tif] undoes the band layout of [combine_bands]: read from
    the bands of the image that [iterate(combine_bands)] builds from
    mosaics having the bands of [BANDS], it returns one time step for each
    mosaic, in their order, holding the scaled band set of that mosaic and
    dated [start_date + i * days_per_timestep]. *)
Theorem load_tif_recovers_the_mosaics
    (D : Type) (BANDS : list string) (rename : list string -> string -> string)
    (scale : D -> D) (fuel : nat) (images : list (CloudFree.image D))
    (start_date : PyDate.date) (days_per_timestep : Z) :
  BANDS <> [] ->
  images <> [] ->
  (forall img, In img images ->
     forall name, In name BANDS -> In name (CloudFree.band_names D img)) ->
  (List.length images < fuel)%nat ->
  exists combined,
    CloudFree.combine D BANDS rename images = CloudFree.Ok combined
    /\ Utils.load_tif D BANDS scale fuel
         (CloudFree.band_data D (CloudFree.bands_of D combined))
         start_date days_per_timestep
       = Utils.Done
           (List.combine
              (map (fun i => start_date + days_per_timestep * Z.of_nat i)
                   (seq 0 (List.length images)))
              (map (fun img => map scale (CloudFree.selected D BANDS img)) images)).
Proof.
  intros Hbands Himages Hall Hfuel.
  destruct (iterate_combine_bands D BANDS rename images Hall None)
    as [combined [Hc Hd]].
  exists combined. split; [exact Hc|].
  cbn [CloudFree.bands_of CloudFree.band_data map app] in Hd. rewrite Hd.
  assert (Hb : (0 < List.length BANDS)%nat)
    by (destruct BANDS; [congruence|cbn; lia]).
  assert (Hk : (0 < List.length images)%nat)
    by (destruct images; [congruence|cbn; lia]).
  rewrite (load_tif_slices D BANDS scale fuel (List.length images) _ start_date
             days_per_timestep Hb Hk
             (concat_selected_length D BANDS images Hall) Hfuel).
  f_equal.
  rewrite concat_map.
  rewrite <- (length_map (CloudFree.selected D BANDS) images).
  rewrite <- (length_map (map scale) (map (CloudFree.selected D BANDS) images)).
  rewrite slices_concat; [rewrite map_map; reflexivity|].
  apply Forall_forall. intros g Hg.
  apply in_map_iff in Hg. destruct Hg as [s [<- Hs]].
  apply in_map_iff in Hs. destruct Hs as [img [<- Hin]].
  rewrite length_map. apply (selected_length D BANDS img (Hall img Hin)).
Qed.

Lemma load_tif_recovers_the_mosaics_witness :
  exists combined,
    CloudFree.combine Z ["B2"; "B3"] Example.suffix_1
      [[("B3", 30000); ("B2", 20000)]; [("B2", 40000); ("B3", 50000)]]
    = CloudFree.Ok combined
    /\ Utils.load_tif Z ["B2"; "B3"] (fun x => x / 10000) 5
         (CloudFree.band_data Z (CloudFree.bands_of Z combined))
         Example.start_2020 30
       = Utils.Done [(Example.start_2020, [2; 3]); (Example.start_2020 + 30, [4; 5])].
Proof.
  apply (load_tif_recovers_the_mosaics Z ["B2"; "B3"] Example.suffix_1
           (fun x => x / 10000) 5
           [[("B3", 30000); ("B2", 20000)]; [("B2", 40000); ("B3", 50000)]]
           Example.start_2020 30).
  - discriminate.
  - discriminate.
  - intros img [<-|[<-|[]]] name [<-|[<-|[]]]; cbn; tauto.
  - cbn. lia.
Defined.

(* ================================================================== *)
(** ** Further properties: [process_filename] of [src/utils.py] *)

Section SplitLemmas.

Import PyText.

Lemma count_app (c : ascii) (s t : string) :
  count c (s ++ t) = (count c s + count c t)%nat.
Proof.
  induction s as [|c' s IH]; cbn [append count]; [reflexivity|].
  rewrite IH. lia.
Qed.

Lemma split_length (sep : ascii) (s : string) :
  List.length (split sep s) = S (count sep s).
Proof.
  induction s as [|c s IH]; cbn [split count]; [reflexivity|].
  destruct (Ascii.eqb c sep); cbn [List.length]; [rewrite IH; reflexivity|].
  destruct (split sep s) as [|piece pieces]; cbn in IH |- *; [discriminate|].
  exact IH.
Qed.

Lemma split_no_sep (sep : ascii) (s : string) :
  count sep s = 0%nat -> split sep s = [s].
Proof.
  induction s as [|c s IH]; cbn [split count]; [reflexivity|].
  destruct (Ascii.eqb c sep); [discriminate|].
  intros H. rewrite (IH H). reflexivity.
Qed.

Lemma split_app_sep (sep : ascii) (s t : string) :
  count sep s = 0%nat ->
  split sep (s ++ String sep t) = s :: split sep t.
Proof.
  induction s as [|c s IH]; cbn [append split count].
  - intros _. rewrite Ascii.eqb_refl. reflexivity.
  - destruct (Ascii.eqb c sep); [discriminate|].
    intros H. rewrite (IH H). reflexivity.
Qed.

Lemma prefix_app_length (s t : string) :
  PyStr.prefix (String.length s) (s ++ t) = s.
Proof.
  induction s as [|c s IH]; cbn; [destruct t; reflexivity|].
  rewrite IH. reflexivity.
Qed.

Lemma drop_last_app (s t : string) :
  drop_last (String.length t) (s ++ t) = s.
Proof.
  unfold drop_last. rewrite append_length.
  replace (String.length s + String.length t - String.length t)%nat
    with (String.length s) by lia.
  apply prefix_app_length.
Qed.

Lemma count_digits (u : Decimal.uint) :
  count "_" (NilEmpty.string_of_uint u) = 0%nat.
Proof. induction u; cbn; assumption || reflexivity. Qed.

Lemma count_uint (u : Decimal.uint) :
  count "_" (NilZero.string_of_uint u) = 0%nat.
Proof.
  destruct u; try reflexivity; apply (count_digits (_ u)) || idtac.
  all: unfold NilZero.string_of_uint.
  all: match goal with |- count _ (NilEmpty.string_of_uint ?v) = _ =>
         apply (count_digits v) end.
Qed.

Lemma count_zeros (n : nat) : count "_" (PyStr.zeros n) = 0%nat.
Proof. induction n as [|n IH]; cbn; [reflexivity|exact IH]. Qed.

Lemma count_zero_padded (width : nat) (n : N) :
  count "_" (PyStr.zero_padded width n) = 0%nat.
Proof.
  unfold PyStr.zero_padded, PyStr.of_N.
  rewrite count_app, count_zeros, count_uint. reflexivity.
Qed.

Lemma count_isoformat (d : PyDate.date) :
  count "_" (PyDate.isoformat d) = 0%nat.
Proof.
  unfold PyDate.isoformat. destruct (PyDate._ord2ymd d) as [[y m] dd].
  rewrite !count_app, !count_zero_padded. reflexivity.
Qed.

Variable strptime : string -> option PyDate.date.
Variable make_date : string -> string -> string -> option PyDate.date.

Lemma process_filename_unpack (filename : string) (flag : bool) :
  List.length (split "_" (drop_last 4 filename)) <> 3%nat ->
  Utils.process_filename strptime make_date filename flag
  = Utils.Raise Utils.ValueError.
Proof.
  unfold Utils.process_filename. intros H.
  destruct (split "_" (drop_last 4 filename)) as [|a [|b [|c [|d l]]]];
    try reflexivity.
  exfalso. apply H. reflexivity.
Qed.

End SplitLemmas.

(** X15: [process_filename] raises [ValueError] for every file name whose
    stem, the name without its last four characters, does not hold exactly
    two underscores, whatever [include_extended_filenames] is: the unpacking
    of the split comes before anything the flag guards. *)
Theorem process_filename_needs_two_underscores
    (strptime : string -> option PyDate.date)
    (make_date : string -> string -> string -> option PyDate.date)
    (filename : string) (include_extended_filenames : bool) :
  PyText.count "_" (PyText.drop_last 4 filename) <> 2%nat ->
  Utils.process_filename strptime make_date filename include_extended_filenames
  = Utils.Raise Utils.ValueError.
Proof.
  intros H. apply process_filename_unpack. rewrite split_length. lia.
Qed.

Lemma process_filename_needs_two_underscores_witness :
  Utils.process_filename (fun _ => Some Example.start_2020)
    (fun _ _ _ => Some Example.end_2021)
    "Togo_north_2020-01-01_2021-01-01.tif" true
  = Utils.Raise Utils.ValueError.
Proof.
  apply process_filename_needs_two_underscores. vm_compute. discriminate.
Defined.

(** X16: the file a [LabelExporter] request writes, [<filename>.tif] with
    the [filename] of [_generate_filename_and_desc], is never read back by
    [process_filename]: the name holds five underscores at least, and the
    call raises [ValueError]. *)
Theorem process_filename_refuses_label_files
    (strptime : string -> option PyDate.date)
    (make_date : string -> string -> string -> option PyDate.date)
    (bbox : BoundingBox) (start_date end_date : PyDate.date)
    (include_extended_filenames : bool) :
  Utils.process_filename strptime make_date
    (fst (_generate_filename_and_desc bbox start_date end_date) ++ ".tif")
    include_extended_filenames
  = Utils.Raise Utils.ValueError.
Proof.
  apply process_filename_unpack.
  rewrite (drop_last_app _ ".tif"), split_length.
  cbn [_generate_filename_and_desc fst].
  rewrite !count_app. cbn [PyText.count Ascii.eqb Bool.eqb Nat.add]. lia.
Qed.

(** X17: a region exported whole is read back: for a destination whose
    last path component has no underscore, [process_filename] applied to
    [<identifier>.tif], the identifier being the one [RegionExporter.export]
    makes without [metres_per_polygon], returns that component with the two
    dates, provided [strptime] reads back these dates as printed. *)
Theorem process_filename_reads_region_identifier
    (strptime : string -> option PyDate.date)
    (make_date : string -> string -> string -> option PyDate.date)
    (dest_path : string) (start_date end_date : PyDate.date)
    (include_extended_filenames : bool) :
  PyText.count "_" (PyText.path_name dest_path) = 0%nat ->
  strptime (PyDate.isoformat start_date) = Some start_date ->
  strptime (PyDate.isoformat end_date) = Some end_date ->
  Utils.process_filename strptime make_date
    (Region.general_identifier dest_path start_date end_date ++ ".tif")
    include_extended_filenames
  = Utils.Done (Some (PyText.path_name dest_path, start_date, end_date)).
Proof.
  intros Hname Hs He. unfold Utils.process_filename.
  rewrite (drop_last_app _ ".tif"). unfold Region.general_identifier.
  cbn [append].
  rewrite (split_app_sep "_" _ _ Hname).
  rewrite (split_app_sep "_" _ _ (count_isoformat start_date)).
  rewrite (split_no_sep "_" _ (count_isoformat end_date)).
  rewrite Hs, He. reflexivity.
Qed.

Lemma process_filename_reads_region_identifier_witness :
  Utils.process_filename
    (fun s => if String.eqb s "2020-01-01" then Some Example.start_2020
              else if String.eqb s "2021-01-01" then Some Example.end_2021
              else None)
    (fun _ _ _ => None)
    (Region.general_identifier "gs://bucket/Togo" Example.start_2020
       Example.end_2021 ++ ".tif")
    false
  = Utils.Done (Some ("Togo", Example.start_2020, Example.end_2021)).
Proof.
  apply (process_filename_reads_region_identifier
           (fun s => if String.eqb s "2020-01-01" then Some Example.start_2020
                     else if String.eqb s "2021-01-01" then Some Example.end_2021
                     else None)
           (fun _ _ _ => None) "gs://bucket/Togo" Example.start_2020
           Example.end_2021 false); vm_compute; reflexivity.
Defined.

(** X18: a region exported in pieces is not: each identifier that
    [RegionExporter.export] makes with [metres_per_polygon] set starts with
    the number of the piece and an underscore, and [process_filename] raises
    [ValueError] on [<identifier>.tif]. *)
Theorem process_filename_refuses_numbered_regions
    (to_polygons : BoundingBox -> Z -> list polygon)
    (strptime : string -> option PyDate.date)
    (make_date : string -> string -> string -> option PyDate.date)
    (region_bbox : BoundingBox) (metres : Z) (dest_path : string)
    (start_date end_date : PyDate.date) (include_extended_filenames : bool) :
  Forall
    (fun identifier =>
       Utils.process_filename strptime make_date (identifier ++ ".tif")
         include_extended_filenames
       = Utils.Raise Utils.ValueError)
    (snd (Region.regions_and_ids to_polygons region_bbox (Some metres)
            (Region.general_identifier dest_path start_date end_date))).
Proof.
  cbn [Region.regions_and_ids snd]. apply Forall_forall. intros identifier Hin.
  apply in_map_iff in Hin. destruct Hin as [i [<- _]].
  apply process_filename_unpack.
  rewrite (drop_last_app _ ".tif"), split_length.
  unfold Region.general_identifier.
  rewrite !count_app. cbn [PyText.count Ascii.eqb Bool.eqb Nat.add]. lia.
Qed.
